(** * Admin division join engine of geoparquet-io

    A shallow embedding of [geoparquet_io/core/admin_datasets.py] and
    [geoparquet_io/core/add_admin_divisions_multi.py], together with the
    properties of the admin-dataset contract, the dataset factory, the join
    query builder and the join executor. *)

From Stdlib Require Import String Ascii List Bool Arith ZArith QArith Lia.
From Stdlib Require Import DecimalString.
Import ListNotations.
Close Scope Q_scope.
Open Scope list_scope.
Open Scope string_scope.

Set Implicit Arguments.

(** ** Python strings *)

Module PyStr.

(** The double quote and the line feed, which the query templates use. *)
Definition dq : string := String (ascii_of_nat 34) EmptyString.
Definition nl : string := String (ascii_of_nat 10) EmptyString.

(** [sep.join(items)] *)
Definition join (sep : string) (items : list string) : string :=
  String.concat sep items.

(** [s.startswith(p)] *)
Definition startswith (s p : string) : bool := String.prefix p s.

(** [s.startswith((p1, p2, ...))] *)
Definition startswith_any (s : string) (ps : list string) : bool :=
  existsb (startswith s) ps.

(** [x in items] for a list of strings. *)
Definition mem (x : string) (items : list string) : bool :=
  existsb (String.eqb x) items.

(** Truth value of an [Optional[str]]: [None] and the empty string are
    falsy. *)
Definition truthy (o : option string) : bool :=
  match o with
  | Some s => negb (s =? "")
  | None => false
  end.

(** [o or default] on an [Optional[str]]. *)
Definition or_else (o : option string) (default : string) : string :=
  match o with
  | Some s => if s =? "" then default else s
  | None => default
  end.

(** [f"{o}"] for an [Optional[str]]. *)
Definition of_opt (o : option string) : string :=
  match o with
  | Some s => s
  | None => "None"
  end.

(** ASCII white space as [str.strip()] sees it. *)
Definition is_space (c : ascii) : bool :=
  let n := nat_of_ascii c in
  (Nat.eqb n 32) || (Nat.leb 9 n && Nat.leb n 13) || (Nat.leb 28 n && Nat.leb n 31).

Fixpoint lstrip (s : string) : string :=
  match s with
  | EmptyString => EmptyString
  | String c r => if is_space c then lstrip r else s
  end.

Fixpoint rstrip (s : string) : string :=
  match s with
  | EmptyString => EmptyString
  | String c r =>
      match rstrip r with
      | EmptyString => if is_space c then EmptyString else String c EmptyString
      | r' => String c r'
      end
  end.

(** [s.strip()] *)
Definition strip (s : string) : string := rstrip (lstrip s).


Definition lower_ascii (c : ascii) : ascii :=
  let n := nat_of_ascii c in
  if Nat.leb 65 n && Nat.leb n 90 then ascii_of_nat (n + 32) else c.

(** [s.lower()] on ASCII text. *)
Fixpoint lower (s : string) : string :=
  match s with
  | EmptyString => EmptyString
  | String c r => String (lower_ascii c) (lower r)
  end.

(** [str(n)] for an integer. *)
Definition of_Z (n : Z) : string := NilZero.string_of_int (Z.to_int n).

(** [str(x)] for an [Optional[int]]. *)
Definition of_opt_Z (o : option Z) : string :=
  match o with
  | Some n => of_Z n
  | None => "None"
  end.

(** Digits grouped by three from the right, as the [","] format option
    does. [k] is the number of digits still to come in [ds]. *)
Fixpoint group3 (ds : list ascii) : string :=
  match ds with
  | [] => EmptyString
  | d :: r =>
      let k := List.length r in
      if (Nat.eqb (k mod 3) 0) && negb (Nat.eqb k 0)
      then String d ("," ++ group3 r)
      else String d (group3 r)
  end.

(** [f"{n:,}"] *)
Definition format_comma (n : Z) : string :=
  if (n <? 0)%Z
  then "-" ++ group3 (list_ascii_of_string (of_Z (Z.abs n)))
  else group3 (list_ascii_of_string (of_Z n)).

(** [needle] occurs in [hay]. *)
Definition occurs_in (needle hay : string) : Prop :=
  exists pre post, hay = pre ++ needle ++ post.

(** The same search as a program, for closed texts. *)
Fixpoint contains (hay needle : string) : bool :=
  String.prefix needle hay ||
  match hay with
  | EmptyString => false
  | String _ r => contains r needle
  end.

End PyStr.

(** ** Python dictionaries with string keys

    Insertion order is kept and a key occurs once, as in Python. *)

Module Dict.

Section WithValue.
Variable V : Type.

Definition t := list (string * V).

Fixpoint get (k : string) (d : t) : option V :=
  match d with
  | [] => None
  | (k', v) :: r => if k =? k' then Some v else get k r
  end.

(** [d[k] = v]: overwrite in place, or append a new key. *)
Fixpoint set (k : string) (v : V) (d : t) : t :=
  match d with
  | [] => [(k, v)]
  | (k', v') :: r => if k =? k' then (k', v) :: r else (k', v') :: set k v r
  end.

Definition keys (d : t) : list string := map fst d.

Definition has_key (k : string) (d : t) : bool :=
  match get k d with Some _ => true | None => false end.
End WithValue.

(** [{f(x): g(x) for x in items}] *)
Definition comprehension {V : Type} (key : string -> string) (val : string -> V)
  (items : list string) : t V :=
  fold_left (fun d x => set (key x) (val x) d) items [].

End Dict.

(** ** Exceptions and results *)

Inductive exn : Type :=
| UsageError (msg : string)            (* click.UsageError *)
| ClickException (msg : string)        (* click.ClickException *)
| TypeError (msg : string)
| NotImplementedError (msg : string)
| KeyError (key : string)
| IndexError (msg : string)
| EngineError (msg : string)           (* raised by the analytical engine *)
| HelperError (msg : string).          (* raised by a helper of core.common *)

Inductive Result (A : Type) : Type :=
| Ok (a : A)
| Raise (e : exn).

Arguments Ok {A} a.
Arguments Raise {A} e.

Definition rbind {A B : Type} (r : Result A) (k : A -> Result B) : Result B :=
  match r with
  | Ok a => k a
  | Raise e => Raise e
  end.

Definition is_ok {A : Type} (r : Result A) : bool :=
  match r with Ok _ => true | Raise _ => false end.

Definition is_engine_error {A : Type} (r : Result A) : bool :=
  match r with Raise (EngineError _) => true | _ => false end.

Fixpoint rmap {A B : Type} (f : A -> Result B) (l : list A) : Result (list B) :=
  match l with
  | [] => Ok []
  | x :: r => rbind (f x) (fun y => rbind (rmap f r) (fun ys => Ok (y :: ys)))
  end.

(** ** The admin datasets of [admin_datasets.py]

    An instance of one of the four dataset classes, with the attributes its
    constructor stores. *)

Inductive AdminDataset : Type :=
| CurrentAdminDataset (source_path : option string) (verbose : bool)
| GAULAdminDataset (source_path : option string) (verbose : bool)
| OvertureAdminDataset (source_path : option string) (verbose : bool)
| CustomAdminDataset (source_path : option string)
    (partition_columns : list string) (geometry_column : string)
    (bbox_column : option string) (verbose : bool).

Module AdminDatasets.

Definition source_path (self : AdminDataset) : option string :=
  match self with
  | CurrentAdminDataset sp _ | GAULAdminDataset sp _
  | OvertureAdminDataset sp _ | CustomAdminDataset sp _ _ _ _ => sp
  end.

Definition verbose (self : AdminDataset) : bool :=
  match self with
  | CurrentAdminDataset _ v | GAULAdminDataset _ v
  | OvertureAdminDataset _ v | CustomAdminDataset _ _ _ _ v => v
  end.

Definition get_dataset_name (self : AdminDataset) : string :=
  match self with
  | CurrentAdminDataset _ _ => "Current (source.coop countries)"
  | GAULAdminDataset _ _ => "GAUL L2 Admin Boundaries"
  | OvertureAdminDataset _ _ => "Overture Maps Divisions"
  | CustomAdminDataset _ _ _ _ _ => "Custom boundaries dataset"
  end.

Definition get_default_source (self : AdminDataset) : Result string :=
  match self with
  | CurrentAdminDataset _ _ =>
      Ok "https://data.source.coop/cholmes/admin-boundaries/countries.parquet"
  | GAULAdminDataset _ _ =>
      Ok "s3://nlebovits/gaul-l2-admin/by_country/*.parquet"
  | OvertureAdminDataset _ _ =>
      Ok "s3://overturemaps-us-west-2/release/2025-10-22.0/theme=divisions/type=division_area/*"
  | CustomAdminDataset _ _ _ _ _ =>
      Raise (NotImplementedError "Custom datasets require source_path to be provided")
  end.

Definition get_available_levels (self : AdminDataset) : list string :=
  match self with
  | CurrentAdminDataset _ _ => ["country"]
  | GAULAdminDataset _ _ => ["continent"; "country"; "department"]
  | OvertureAdminDataset _ _ => ["country"; "region"]
  | CustomAdminDataset _ cols _ _ _ => cols
  end.

Definition get_level_column_mapping (self : AdminDataset) : Dict.t string :=
  match self with
  | CurrentAdminDataset _ _ => [("country", "country")]
  | GAULAdminDataset _ _ =>
      [("continent", "continent"); ("country", "gaul0_name");
       ("department", "gaul2_name")]
  | OvertureAdminDataset _ _ =>
      [("country", "country"); ("region", "names['primary']")]
  | CustomAdminDataset _ cols _ _ _ =>
      Dict.comprehension (fun col => col) (fun col => col) cols
  end.

Definition get_geometry_column (self : AdminDataset) : string :=
  match self with
  | CustomAdminDataset _ _ g _ _ => g
  | _ => "geometry"
  end.

Definition get_bbox_column (self : AdminDataset) : option string :=
  match self with
  | CurrentAdminDataset _ _ => Some "bbox"
  | GAULAdminDataset _ _ => Some "geometry_bbox"
  | OvertureAdminDataset _ _ => Some "bbox"
  | CustomAdminDataset _ _ _ b _ => b
  end.

(** The same dataset, built with no [source_path]. *)
Definition without_override (self : AdminDataset) : AdminDataset :=
  match self with
  | CurrentAdminDataset _ v => CurrentAdminDataset None v
  | GAULAdminDataset _ v => GAULAdminDataset None v
  | OvertureAdminDataset _ v => OvertureAdminDataset None v
  | CustomAdminDataset _ cols g b v => CustomAdminDataset None cols g b v
  end.

(** [self.source_path if self.source_path else self.get_default_source()] *)
Definition get_source (self : AdminDataset) : Result string :=
  match source_path self with
  | Some s => if s =? "" then get_default_source self else Ok s
  | None => get_default_source self
  end.

Definition is_remote (self : AdminDataset) : Result bool :=
  rbind (get_source self) (fun source =>
  Ok (PyStr.startswith_any source ["http://"; "https://"; "s3://"])).

Definition invalid_levels (self : AdminDataset) (levels : list string)
  : list string :=
  filter (fun level => negb (PyStr.mem level (get_available_levels self))) levels.

Definition validate_levels (self : AdminDataset) (levels : list string)
  : Result unit :=
  let available := get_available_levels self in
  let invalid := invalid_levels self levels in
  match invalid with
  | [] => Ok tt
  | _ :: _ =>
      Raise (UsageError
        ("Invalid levels for " ++ get_dataset_name self ++ ": "
           ++ PyStr.join ", " invalid ++ ". "
           ++ "Available levels: " ++ PyStr.join ", " available))
  end.

(** [mapping[level]] *)
Definition subscript (mapping : Dict.t string) (level : string) : Result string :=
  match Dict.get level mapping with
  | Some col => Ok col
  | None => Raise (KeyError level)
  end.

Definition get_partition_columns (self : AdminDataset) (levels : list string)
  : Result (list string) :=
  rbind (validate_levels self levels) (fun _ =>
  let mapping := get_level_column_mapping self in
  rmap (subscript mapping) levels).

Definition get_read_parquet_options (self : AdminDataset) : Dict.t Z :=
  match self with
  | OvertureAdminDataset _ _ => [("hive_partitioning", 1%Z)]
  | _ => []
  end.

Definition level_to_subtype : Dict.t string :=
  [("country", "country"); ("region", "region")].

Definition get_subtype_filter (self : AdminDataset) (levels : list string)
  : option string :=
  match self with
  | OvertureAdminDataset _ _ =>
      let subtypes :=
        flat_map (fun level =>
                    match Dict.get level level_to_subtype with
                    | Some s => [s]
                    | None => []
                    end) levels in
      match subtypes with
      | [] => None
      | _ :: _ =>
          let subtype_list :=
            PyStr.join ", " (map (fun s => "'" ++ s ++ "'") subtypes) in
          Some ("subtype IN (" ++ subtype_list ++ ")")
      end
  | _ => None
  end.

(** The statements [configure_s3] executes on the connection it is given.
    The custom class does not override the method of the base class, whose
    body is [pass]. *)
Definition configure_s3_statements (self : AdminDataset) : list string :=
  match self with
  | CurrentAdminDataset _ _ | GAULAdminDataset _ _ =>
      ["SET s3_endpoint='data.source.coop';"; "SET s3_url_style='path';";
       "SET s3_use_ssl=true;"]
  | OvertureAdminDataset _ _ => ["SET s3_region='us-west-2';"]
  | CustomAdminDataset _ _ _ _ _ => []
  end.

End AdminDatasets.

(** ** The dataset factory *)

(** The classes of the module that derive from [AdminDataset] (the base class
    included, as [issubclass] has it). *)
Inductive AdminClass : Type :=
| AdminDataset_cls
| CurrentAdminDataset_cls
| GAULAdminDataset_cls
| OvertureAdminDataset_cls
| CustomAdminDataset_cls.

(** A class object handed to [register_dataset]: one of the above, or a class
    outside the hierarchy, known by its name. *)
Inductive PyClass : Type :=
| cls_admin (c : AdminClass)
| cls_other (qualname : string).

Module AdminDatasetFactory.

Definition class_name (c : AdminClass) : string :=
  match c with
  | AdminDataset_cls => "AdminDataset"
  | CurrentAdminDataset_cls => "CurrentAdminDataset"
  | GAULAdminDataset_cls => "GAULAdminDataset"
  | OvertureAdminDataset_cls => "OvertureAdminDataset"
  | CustomAdminDataset_cls => "CustomAdminDataset"
  end.

(** The methods marked [@abstractmethod] in the base class that a class has
    not overridden ([__abstractmethods__]). *)
Definition abstractmethods (c : AdminClass) : list string :=
  match c with
  | AdminDataset_cls =>
      ["configure_s3"; "get_available_levels"; "get_bbox_column";
       "get_dataset_name"; "get_default_source"; "get_geometry_column";
       "get_level_column_mapping"]
  | CustomAdminDataset_cls => ["configure_s3"]
  | _ => []
  end.

(** The error of [object.__new__] on a class with abstract methods left. *)
Definition abstract_error (c : AdminClass) : exn :=
  let names := abstractmethods c in
  TypeError ("Can't instantiate abstract class " ++ class_name c
               ++ " with abstract method"
               ++ (if Nat.ltb 1 (List.length names) then "s" else "") ++ " "
               ++ PyStr.join ", " names).

(** [dataset_class(source_path=source_path, verbose=verbose)]: a class with
    abstract methods left cannot be instantiated. *)
Definition instantiate (c : AdminClass) (source_path : option string)
  (verbose : bool) : Result AdminDataset :=
  match c with
  | CurrentAdminDataset_cls => Ok (CurrentAdminDataset source_path verbose)
  | GAULAdminDataset_cls => Ok (GAULAdminDataset source_path verbose)
  | OvertureAdminDataset_cls => Ok (OvertureAdminDataset source_path verbose)
  | AdminDataset_cls | CustomAdminDataset_cls => Raise (abstract_error c)
  end.

(** [type(self)] *)
Definition class_of (self : AdminDataset) : AdminClass :=
  match self with
  | CurrentAdminDataset _ _ => CurrentAdminDataset_cls
  | GAULAdminDataset _ _ => GAULAdminDataset_cls
  | OvertureAdminDataset _ _ => OvertureAdminDataset_cls
  | CustomAdminDataset _ _ _ _ _ => CustomAdminDataset_cls
  end.

(** The registry holds classes that passed the [issubclass] test of
    [register_dataset]. *)
Definition registry := Dict.t AdminClass.

Definition _datasets : registry :=
  [("current", CurrentAdminDataset_cls); ("gaul", GAULAdminDataset_cls);
   ("overture", OvertureAdminDataset_cls)].

Definition get_available_datasets (cls : registry) : list string :=
  Dict.keys cls.

Definition create (cls : registry) (dataset_name : string)
  (source_path : option string) (verbose : bool) : Result AdminDataset :=
  match Dict.get dataset_name cls with
  | None =>
      Raise (UsageError
        ("Unknown admin dataset: " ++ dataset_name ++ ". "
           ++ "Available: " ++ PyStr.join ", " (get_available_datasets cls)))
  | Some dataset_class => instantiate dataset_class source_path verbose
  end.

(** [CustomAdminDataset(source_path=..., ...)] *)
Definition create_custom (source_path : option string)
  (partition_columns : list string) (geometry_column : string)
  (bbox_column : option string) (verbose : bool) : Result AdminDataset :=
  match abstractmethods CustomAdminDataset_cls with
  | [] => Ok (CustomAdminDataset source_path partition_columns
                geometry_column bbox_column verbose)
  | _ :: _ => Raise (abstract_error CustomAdminDataset_cls)
  end.

Definition issubclass_AdminDataset (dataset_class : PyClass) : bool :=
  match dataset_class with
  | cls_admin _ => true
  | cls_other _ => false
  end.

(** The registry is a class attribute: [register_dataset] returns its
    outcome and the registry it leaves behind. *)
Definition register_dataset (cls : registry) (name : string)
  (dataset_class : PyClass) : Result unit * registry :=
  match dataset_class with
  | cls_other qualname =>
      (Raise (TypeError ("<class '" ++ qualname ++ "'>"
                           ++ " must be a subclass of AdminDataset")), cls)
  | cls_admin c => (Ok tt, Dict.set name c cls)
  end.

End AdminDatasetFactory.

(** ** The world a join request runs in

    The helpers of [geoparquet_io.core.common], the DuckDB engine and
    [os.path.exists] are outside this development: they are taken as
    parameters, over an arbitrary type [FS] of file-system states and an
    arbitrary type [Meta] of Parquet metadata. *)

(** The dictionary [check_bbox_structure] returns, with the keys the join
    reads. *)
Record BboxInfo : Type := {
  status : string;
  bbox_column_name : option string;
  has_bbox_column : bool;
  message : string
}.

(** One [click.echo], with the styling given to [click.style]. *)
Record Out : Type := {
  text : string;
  fg : option string;
  bold : bool
}.

Inductive Event : Type :=
| EvEcho (o : Out)
| EvConnect                                  (* duckdb.connect() *)
| EvExecute (sql : string)                   (* con.execute(sql) *)
| EvClose                                    (* con.close() *)
| EvGetMetadata (path : string)              (* get_parquet_metadata *)
| EvAddBbox (path column : string)           (* add_bbox *)
| EvWrite (query output : string).           (* write_parquet_with_metadata *)

(** The engine session of the request, with the statements it has run. *)
Inductive ConState : Type :=
| NoSession
| SessionOpen (history : list string)
| SessionClosed (history : list string).

Record WriteOptions : Type := {
  wo_compression : string;
  wo_compression_level : option Z;
  wo_row_group_size_mb : option Q;
  wo_row_group_rows : option Z;
  wo_verbose : bool
}.

Section World.

Variables FS Meta : Type.

Record Externals : Type := {
  os_path_exists : FS -> string -> bool;
  safe_file_url : FS -> string -> bool -> Result string;
  find_primary_geometry_column : FS -> string -> bool -> Result string;
  check_bbox_structure : FS -> string -> bool -> Result BboxInfo;
  get_parquet_metadata : FS -> string -> bool -> Result Meta;
  add_bbox : FS -> string -> string -> bool -> Result unit * FS;
  (* the row [fetchone()] yields for a statement, given the statements the
     session ran before *)
  engine_execute : FS -> list string -> string -> Result (list Z);
  write_parquet_with_metadata :
    FS -> list string -> string -> string -> option Meta -> WriteOptions
    -> Result unit * FS
}.

Record World : Type := {
  w_fs : FS;
  w_con : ConState;
  w_log : list Event
}.

(** Computations that read and change the world and may raise. *)
Definition M (A : Type) : Type := World -> Result A * World.

Definition ret {A : Type} (a : A) : M A := fun w => (Ok a, w).

Definition raise {A : Type} (e : exn) : M A := fun w => (Raise e, w).

Definition bind {A B : Type} (m : M A) (k : A -> M B) : M B :=
  fun w =>
    match m w with
    | (Ok a, w') => k a w'
    | (Raise e, w') => (Raise e, w')
    end.

Definition lift {A : Type} (r : Result A) : M A := fun w => (r, w).

Definition log (e : Event) : M unit :=
  fun w => (Ok tt, {| w_fs := w_fs w; w_con := w_con w;
                      w_log := (w_log w ++ [e])%list |}).

Definition when (b : bool) (m : M unit) : M unit :=
  if b then m else ret tt.

Fixpoint mapM {A B : Type} (f : A -> M B) (l : list A) : M (list B) :=
  match l with
  | [] => ret []
  | x :: r =>
      bind (f x) (fun y => bind (mapM f r) (fun ys => ret (y :: ys)))
  end.

End World.

Arguments ret {FS A} a.
Arguments raise {FS A} e.
Arguments lift {FS A} r.
Arguments log {FS} e.
Arguments when {FS} b m.

Declare Scope py_scope.
Delimit Scope py_scope with py.
Notation "x <- m ;; k" := (bind m (fun x => k))
  (at level 61, m at next level, right associativity) : py_scope.
Notation "m ;; k" := (bind m (fun _ => k))
  (at level 61, right associativity) : py_scope.

(** ** The arguments of [add_admin_divisions_multi] *)

Record JoinRequest : Type := {
  input_parquet : string;
  output_parquet : string;
  dataset_name : string;
  levels : list string;
  dataset_source : option string;
  add_bbox_flag : bool;
  dry_run : bool;
  verbose : bool;
  compression : string;
  compression_level : option Z;
  row_group_size_mb : option Q;
  row_group_rows : option Z
}.

(** ** The texts [add_admin_divisions_multi] builds *)

Module QueryText.

Import PyStr.

(** [f'b."{col}" as "{output_col_name}"'] with
    [output_col_name = f"admin:{level}"] *)
Definition admin_select_part (level col : string) : string :=
  let output_col_name := "admin:" ++ level in
  "b." ++ dq ++ col ++ dq ++ " as " ++ dq ++ output_col_name ++ dq.

Definition admin_select_parts (levels partition_columns : list string)
  : list string :=
  map (fun lc => admin_select_part (fst lc) (snd lc))
      (combine levels partition_columns).

Definition admin_select_clause (levels partition_columns : list string)
  : string :=
  join ", " (admin_select_parts levels partition_columns).

Definition bbox_condition (input_bbox_col admin_bbox_col : string) : string :=
  "(a." ++ input_bbox_col ++ ".xmin <= b." ++ admin_bbox_col ++ ".xmax AND" ++ nl
  ++ "        a." ++ input_bbox_col ++ ".xmax >= b." ++ admin_bbox_col ++ ".xmin AND" ++ nl
  ++ "        a." ++ input_bbox_col ++ ".ymin <= b." ++ admin_bbox_col ++ ".ymax AND" ++ nl
  ++ "        a." ++ input_bbox_col ++ ".ymax >= b." ++ admin_bbox_col ++ ".ymin)".

Definition query_with_bbox
  (select_clause input_url admin_table_ref condition admin_geom_col
     input_geom_col : string) : string :=
  nl
  ++ "    SELECT" ++ nl
  ++ "        a.*," ++ nl
  ++ "        " ++ select_clause ++ nl
  ++ "    FROM '" ++ input_url ++ "' a" ++ nl
  ++ "    LEFT JOIN " ++ admin_table_ref ++ " b" ++ nl
  ++ "    ON " ++ condition ++ "  -- Fast bbox intersection test" ++ nl
  ++ "        AND ST_Intersects(  -- More expensive precise check only on bbox matches" ++ nl
  ++ "            b." ++ admin_geom_col ++ "," ++ nl
  ++ "            a." ++ input_geom_col ++ nl
  ++ "        )" ++ nl.

Definition query_exact_only
  (select_clause input_url admin_table_ref admin_geom_col input_geom_col
     : string) : string :=
  nl
  ++ "    SELECT" ++ nl
  ++ "        a.*," ++ nl
  ++ "        " ++ select_clause ++ nl
  ++ "    FROM '" ++ input_url ++ "' a" ++ nl
  ++ "    LEFT JOIN " ++ admin_table_ref ++ " b" ++ nl
  ++ "    ON ST_Intersects(b." ++ admin_geom_col ++ ", a." ++ input_geom_col ++ ")" ++ nl.

(** The [if input_bbox_col and admin_bbox_col] that picks the template. *)
Definition use_bbox (input_bbox_col admin_bbox_col : option string) : bool :=
  truthy input_bbox_col && truthy admin_bbox_col.

Definition build_query (select_clause input_url admin_table_ref : string)
  (input_bbox_col admin_bbox_col : option string)
  (admin_geom_col input_geom_col : string) : string :=
  if use_bbox input_bbox_col admin_bbox_col then
    query_with_bbox select_clause input_url admin_table_ref
      (bbox_condition (of_opt input_bbox_col) (of_opt admin_bbox_col))
      admin_geom_col input_geom_col
  else
    query_exact_only select_clause input_url admin_table_ref
      admin_geom_col input_geom_col.

Definition compression_str (compression : string)
  (compression_level : option Z) : string :=
  if mem compression ["GZIP"; "ZSTD"; "BROTLI"]
  then compression ++ ":" ++ of_opt_Z compression_level
  else compression.

Definition duckdb_compression (compression : string) : string :=
  if compression =? "UNCOMPRESSED" then "uncompressed" else lower compression.

Definition display_query (query output_parquet compression : string) : string :=
  "COPY (" ++ strip query ++ ")" ++ nl
  ++ "TO '" ++ output_parquet ++ "'" ++ nl
  ++ "(FORMAT PARQUET, COMPRESSION '" ++ duckdb_compression compression ++ "');".

Definition admin_cols_check (levels : list string) : string :=
  join " OR "
    (map (fun level => dq ++ "admin:" ++ level ++ dq ++ " IS NOT NULL") levels).

Definition stats_query (levels : list string) (output_parquet : string) : string :=
  nl
  ++ "    SELECT" ++ nl
  ++ "        COUNT(*) as total_features," ++ nl
  ++ "        COUNT(CASE WHEN " ++ admin_cols_check levels
  ++ " THEN 1 END) as features_with_admin" ++ nl
  ++ "    FROM '" ++ output_parquet ++ "';" ++ nl
  ++ "    ".

Definition count_query (level output_parquet : string) : string :=
  nl
  ++ "        SELECT COUNT(DISTINCT " ++ dq ++ "admin:" ++ level ++ dq
  ++ ") as unique_count" ++ nl
  ++ "        FROM '" ++ output_parquet ++ "'" ++ nl
  ++ "        WHERE " ++ dq ++ "admin:" ++ level ++ dq ++ " IS NOT NULL;" ++ nl
  ++ "        ".

(** The statements run on every new session, before anything else. *)
Definition setup_statements : list string :=
  ["INSTALL spatial;"; "LOAD spatial;"; "INSTALL httpfs;"; "LOAD httpfs;";
   "SET s3_endpoint='data.source.coop';"; "SET s3_url_style='path';";
   "SET s3_use_ssl=true;"].

End QueryText.

(** ** The join executor *)

Section JoinExecutor.

Variables FS Meta : Type.
Variable ext : Externals FS Meta.

Import PyStr.
Local Open Scope py_scope.

Local Abbreviation M := (M FS).

Definition click_echo (s : string) : M unit :=
  log (EvEcho {| text := s; fg := None; bold := false |}).

Definition click_echo_style (s : string) (colour : string) (b : bool) : M unit :=
  log (EvEcho {| text := s; fg := Some colour; bold := b |}).

Definition duckdb_connect : M unit :=
  fun w => (Ok tt, {| w_fs := w_fs w; w_con := SessionOpen [];
                      w_log := (w_log w ++ [EvConnect])%list |}).

(** [con.execute(sql).fetchone()]; a statement that fails leaves the
    session as it was. *)
Definition con_execute (sql : string) : M (list Z) :=
  fun w =>
    let w1 := {| w_fs := w_fs w; w_con := w_con w;
                 w_log := (w_log w ++ [EvExecute sql])%list |} in
    match w_con w with
    | SessionOpen history =>
        match engine_execute ext (w_fs w) history sql with
        | Ok row =>
            (Ok row, {| w_fs := w_fs w;
                        w_con := SessionOpen (history ++ [sql])%list;
                        w_log := w_log w1 |})
        | Raise e => (Raise e, w1)
        end
    | _ => (Raise (EngineError "Connection already closed!"), w1)
    end.

Definition con_close : M unit :=
  fun w =>
    (Ok tt, {| w_fs := w_fs w;
               w_con := match w_con w with
                        | SessionOpen history => SessionClosed history
                        | c => c
                        end;
               w_log := (w_log w ++ [EvClose])%list |}).

(** [row[i]] *)
Definition row_item (row : list Z) (i : nat) : M Z :=
  match nth_error row i with
  | Some v => ret v
  | None => raise (IndexError "tuple index out of range")
  end.

Definition call_safe_file_url (path : string) (v : bool) : M string :=
  fun w => (safe_file_url ext (w_fs w) path v, w).

Definition call_find_primary_geometry_column (path : string) (v : bool)
  : M string :=
  fun w => (find_primary_geometry_column ext (w_fs w) path v, w).

Definition call_check_bbox_structure (path : string) (v : bool) : M BboxInfo :=
  fun w => (check_bbox_structure ext (w_fs w) path v, w).

Definition call_get_parquet_metadata (path : string) (v : bool) : M Meta :=
  fun w => (get_parquet_metadata ext (w_fs w) path v,
            {| w_fs := w_fs w; w_con := w_con w;
               w_log := (w_log w ++ [EvGetMetadata path])%list |}).

Definition call_add_bbox (path column : string) (v : bool) : M unit :=
  fun w =>
    let '(r, fs') := add_bbox ext (w_fs w) path column v in
    (r, {| w_fs := fs'; w_con := w_con w;
           w_log := (w_log w ++ [EvAddBbox path column])%list |}).

Definition call_write_parquet_with_metadata (query output : string)
  (original_metadata : option Meta) (opts : WriteOptions) : M unit :=
  fun w =>
    let history := match w_con w with
                   | SessionOpen h | SessionClosed h => h
                   | NoSession => []
                   end in
    let '(r, fs') :=
      write_parquet_with_metadata ext (w_fs w) history query output
        original_metadata opts in
    (r, {| w_fs := fs'; w_con := w_con w;
           w_log := (w_log w ++ [EvWrite query output])%list |}).

Definition call_os_path_exists (path : string) : M bool :=
  fun w => (Ok (os_path_exists ext (w_fs w) path), w).

(** [AdminDataset.configure_s3] *)
Definition configure_s3 (self : AdminDataset) : M unit :=
  mapM con_execute (AdminDatasets.configure_s3_statements self) ;; ret tt.

(** [AdminDataset.prepare_data_source] *)
Definition prepare_data_source (self : AdminDataset) : M string :=
  source <- lift (AdminDatasets.get_source self) ;;
  remote <- lift (AdminDatasets.is_remote self) ;;
  if remote : bool then
    when (AdminDatasets.verbose self)
      (click_echo ("Using remote dataset: " ++ source)) ;;
    ret ("'" ++ source ++ "'")
  else
    found <- call_os_path_exists source ;;
    if negb found then
      raise (ClickException ("Data source file not found: " ++ source))
    else
      when (AdminDatasets.verbose self)
        (click_echo ("Using local data source: " ++ source)) ;;
      ret ("'" ++ source ++ "'").

(** The part of the body guarded by [if not dry_run] that fetches the
    metadata, warns about the bbox structure and repairs it on request. It
    yields the metadata and the bbox column name, which the repair may
    have rebound. *)
Definition fetch_metadata_and_check_bbox (rq : JoinRequest)
  (input_bbox_info : BboxInfo) (input_bbox_col : option string)
  (input_geom_col admin_geom_col : string)
  : M (option Meta * option string) :=
  metadata <- call_get_parquet_metadata (input_parquet rq) (verbose rq) ;;
  input_bbox_col <-
    (if negb (status input_bbox_info =? "optimal") then
       click_echo_style
         (nl ++ "Warning: Input file could benefit from bbox optimization:"
             ++ nl ++ message input_bbox_info) "yellow" false ;;
       if add_bbox_flag rq then
         if negb (has_bbox_column input_bbox_info) then
           click_echo "Adding bbox column to input file..." ;;
           call_add_bbox (input_parquet rq) "bbox" (verbose rq) ;;
           click_echo_style "✓ Added bbox column and metadata to input file"
             "green" false ;;
           input_bbox_info <-
             call_check_bbox_structure (input_parquet rq) (verbose rq) ;;
           ret (bbox_column_name input_bbox_info)
         else ret input_bbox_col
       else ret input_bbox_col
     else ret input_bbox_col) ;;
  when (verbose rq)
    (click_echo ("Using geometry columns: " ++ input_geom_col
                   ++ " (input), " ++ admin_geom_col ++ " (admin)")) ;;
  ret (Some metadata, input_bbox_col).

(** [add_admin_divisions_multi], with the factory's registry [cls] made
    explicit. *)
Definition add_admin_divisions_multi (cls : AdminDatasetFactory.registry)
  (rq : JoinRequest) : M unit :=
  (* Create dataset instance *)
  dataset <- lift (AdminDatasetFactory.create cls (dataset_name rq)
                     (dataset_source rq) (verbose rq)) ;;
  when (verbose rq)
    (click_echo (nl ++ "Using admin dataset: "
                    ++ AdminDatasets.get_dataset_name dataset) ;;
     source <- lift (AdminDatasets.get_source dataset) ;;
     click_echo ("Data source: " ++ source) ;;
     click_echo ("Adding admin levels: " ++ join ", " (levels rq))) ;;
  (* Validate levels *)
  lift (AdminDatasets.validate_levels dataset (levels rq)) ;;
  (* Get column names for the requested levels *)
  partition_columns <-
    lift (AdminDatasets.get_partition_columns dataset (levels rq)) ;;
  (* Get safe URLs *)
  input_url <- call_safe_file_url (input_parquet rq) (verbose rq) ;;
  admin_source <- lift (AdminDatasets.get_source dataset) ;;
  (* Get geometry column names *)
  input_geom_col <-
    call_find_primary_geometry_column (input_parquet rq) (verbose rq) ;;
  let admin_geom_col := AdminDatasets.get_geometry_column dataset in
  (* Check bbox columns *)
  input_bbox_info <- call_check_bbox_structure (input_parquet rq) (verbose rq) ;;
  let input_bbox_col := bbox_column_name input_bbox_info in
  let admin_bbox_col := AdminDatasets.get_bbox_column dataset in
  (* Start dry-run mode output if needed *)
  when (dry_run rq)
    (click_echo_style
       (nl ++ "=== DRY RUN MODE - SQL Commands that would be executed ==="
           ++ nl) "yellow" true ;;
     click_echo_style ("-- Input file: " ++ input_url) "cyan" false ;;
     click_echo_style ("-- Admin dataset: " ++ admin_source) "cyan" false ;;
     click_echo_style ("-- Output file: " ++ output_parquet rq) "cyan" false ;;
     click_echo_style
       ("-- Geometry columns: " ++ input_geom_col ++ " (input), "
          ++ admin_geom_col ++ " (admin)") "cyan" false ;;
     click_echo_style
       ("-- Bbox columns: " ++ or_else input_bbox_col "none" ++ " (input), "
          ++ or_else admin_bbox_col "none" ++ " (admin)" ++ nl)
       "cyan" false) ;;
  (* Get metadata before processing (skip in dry-run) *)
  md_col <-
    (if negb (dry_run rq) then
       fetch_metadata_and_check_bbox rq input_bbox_info input_bbox_col
         input_geom_col admin_geom_col
     else ret (None, input_bbox_col)) ;;
  let metadata := fst md_col in
  let input_bbox_col := snd md_col in
  (* Create DuckDB connection and load spatial extension *)
  duckdb_connect ;;
  con_execute "INSTALL spatial;" ;;
  con_execute "LOAD spatial;" ;;
  (* Configure S3 access for source.coop *)
  con_execute "INSTALL httpfs;" ;;
  con_execute "LOAD httpfs;" ;;
  con_execute "SET s3_endpoint='data.source.coop';" ;;
  con_execute "SET s3_url_style='path';" ;;
  con_execute "SET s3_use_ssl=true;" ;;
  (* Get total input count (skip in dry-run) *)
  when (negb (dry_run rq))
    (row <- con_execute ("SELECT COUNT(*) FROM '" ++ input_url ++ "'") ;;
     total_count <- row_item row 0 ;;
     click_echo ("Processing " ++ format_comma total_count
                   ++ " input features...")) ;;
  (* Prepare admin data source *)
  admin_table_ref <- prepare_data_source dataset ;;
  (* Build SELECT clause for admin columns *)
  let admin_select_clause :=
    QueryText.admin_select_clause (levels rq) partition_columns in
  (* Build spatial join query based on bbox availability *)
  (if QueryText.use_bbox input_bbox_col admin_bbox_col then
     when (verbose rq && negb (dry_run rq))
       (click_echo "Using bbox columns for initial filtering...")
   else
     when (negb (dry_run rq))
       (click_echo
          "No bbox columns available, using full geometry intersection...")) ;;
  let query :=
    QueryText.build_query admin_select_clause input_url admin_table_ref
      input_bbox_col admin_bbox_col admin_geom_col input_geom_col in
  if dry_run rq then
    (* In dry-run mode, just show the query *)
    click_echo_style "-- Main spatial join query" "cyan" false ;;
    (if QueryText.use_bbox input_bbox_col admin_bbox_col then
       click_echo_style "-- Using bbox columns for optimized spatial join"
         "cyan" false
     else
       click_echo_style
         "-- Using full geometry intersection (no bbox optimization)"
         "cyan" false) ;;
    click_echo
      (QueryText.display_query query (output_parquet rq) (compression rq)) ;;
    click_echo_style
      (nl ++ "-- Note: Using "
          ++ QueryText.compression_str (compression rq) (compression_level rq)
          ++ " compression") "cyan" false ;;
    click_echo_style
      "-- Original metadata would also be preserved in the output file"
      "cyan" false ;;
    con_close ;;
    ret tt
  else
    (* Execute the query using the common write method *)
    when (verbose rq)
      (click_echo "Performing spatial join with admin boundaries...") ;;
    call_write_parquet_with_metadata query (output_parquet rq) metadata
      {| wo_compression := compression rq;
         wo_compression_level := compression_level rq;
         wo_row_group_size_mb := row_group_size_mb rq;
         wo_row_group_rows := row_group_rows rq;
         wo_verbose := verbose rq |} ;;
    (* Get statistics about the results *)
    stats <- con_execute (QueryText.stats_query (levels rq) (output_parquet rq)) ;;
    total_features <- row_item stats 0 ;;
    features_with_admin <- row_item stats 1 ;;
    (* Get count of unique values for each admin level *)
    unique_counts <-
      mapM (fun level =>
              result <- con_execute
                          (QueryText.count_query level (output_parquet rq)) ;;
              n <- row_item result 0 ;;
              ret (level, n)) (levels rq) ;;
    con_close ;;
    click_echo (nl ++ "Results:") ;;
    click_echo ("- Added admin division data to "
                  ++ format_comma features_with_admin ++ " of "
                  ++ format_comma total_features ++ " features") ;;
    mapM (fun lc => click_echo ("- Found " ++ format_comma (snd lc)
                                  ++ " unique " ++ fst lc ++ " values"))
         unique_counts ;;
    click_echo (nl ++ "Successfully wrote output to: " ++ output_parquet rq).

End JoinExecutor.

(** ** What the join condition means

    The [ON] clause of the two query templates, as a term, and its value on a
    pair of rows under SQL's three-valued logic. The engine's geometry type
    and its [ST_Intersects] are parameters. *)

Inductive JoinOn : Type :=
| OnBboxAndIntersects
    (input_bbox_col admin_bbox_col admin_geom_col input_geom_col : string)
| OnIntersects (admin_geom_col input_geom_col : string).

Module JoinCondition.

Import PyStr.

(** The clause the code picks, by the test of [QueryText.build_query]. *)
Definition join_on (input_bbox_col admin_bbox_col : option string)
  (admin_geom_col input_geom_col : string) : JoinOn :=
  if QueryText.use_bbox input_bbox_col admin_bbox_col then
    OnBboxAndIntersects (of_opt input_bbox_col) (of_opt admin_bbox_col)
      admin_geom_col input_geom_col
  else OnIntersects admin_geom_col input_geom_col.

(** The text of a clause, as it stands after [ON ] in the templates. *)
Definition render (on : JoinOn) : string :=
  match on with
  | OnBboxAndIntersects ib ab agc igc =>
      QueryText.bbox_condition ib ab ++ "  -- Fast bbox intersection test" ++ nl
      ++ "        AND ST_Intersects(  -- More expensive precise check only on bbox matches" ++ nl
      ++ "            b." ++ agc ++ "," ++ nl
      ++ "            a." ++ igc ++ nl
      ++ "        )"
  | OnIntersects agc igc =>
      "ST_Intersects(b." ++ agc ++ ", a." ++ igc ++ ")"
  end.

(** What comes before the clause in both templates. *)
Definition select_from (select_clause input_url admin_table_ref : string)
  : string :=
  nl
  ++ "    SELECT" ++ nl
  ++ "        a.*," ++ nl
  ++ "        " ++ select_clause ++ nl
  ++ "    FROM '" ++ input_url ++ "' a" ++ nl
  ++ "    LEFT JOIN " ++ admin_table_ref ++ " b" ++ nl
  ++ "    ON ".

End JoinCondition.

Record BBox : Type := { xmin : Q; xmax : Q; ymin : Q; ymax : Q }.

Section JoinSemantics.

Variable Geom : Type.
(** The engine's [ST_Intersects]. *)
Variable st_intersects : Geom -> Geom -> bool.

Inductive Value : Type :=
| VNull
| VText (s : string)
| VGeom (g : Geom)
| VBBox (b : BBox).

Definition Row : Type := Dict.t Value.

(** [t.col]; a column a row does not carry reads as NULL. *)
Definition column (row : Row) (col : string) : Value :=
  match Dict.get col row with
  | Some v => v
  | None => VNull
  end.

(** [v.field] on a bbox struct. *)
Definition field (v : Value) (f : BBox -> Q) : option Q :=
  match v with
  | VBBox b => Some (f b)
  | _ => None
  end.

(** Comparisons and [AND] with NULL as [None]. *)
Definition le3 (x y : option Q) : option bool :=
  match x, y with
  | Some p, Some q => Some (Qle_bool p q)
  | _, _ => None
  end.

Definition ge3 (x y : option Q) : option bool := le3 y x.

Definition and3 (p q : option bool) : option bool :=
  match p, q with
  | Some false, _ | _, Some false => Some false
  | Some true, Some true => Some true
  | _, _ => None
  end.

Definition intersects3 (v1 v2 : Value) : option bool :=
  match v1, v2 with
  | VGeom g, VGeom h => Some (st_intersects g h)
  | _, _ => None
  end.

Definition bbox_overlap3 (va vb : Value) : option bool :=
  and3 (and3 (and3 (le3 (field va xmin) (field vb xmax))
                   (ge3 (field va xmax) (field vb xmin)))
             (le3 (field va ymin) (field vb ymax)))
       (ge3 (field va ymax) (field vb ymin)).

(** The value of the clause for input row [a] and admin row [b]. *)
Definition eval_on (on : JoinOn) (a b : Row) : option bool :=
  match on with
  | OnBboxAndIntersects ib ab agc igc =>
      and3 (bbox_overlap3 (column a ib) (column b ab))
           (intersects3 (column b agc) (column a igc))
  | OnIntersects agc igc =>
      intersects3 (column b agc) (column a igc)
  end.

Definition holds (v : option bool) : bool :=
  match v with Some true => true | _ => false end.

(** [a LEFT JOIN b ON on]: an input row with no match is kept once, with
    no admin row. *)
Definition left_join (on : JoinOn) (input admin : list Row)
  : list (Row * option Row) :=
  flat_map (fun a =>
              match filter (fun b => holds (eval_on on a b)) admin with
              | [] => [(a, None)]
              | matches => map (fun b => (a, Some b)) matches
              end) input.

(** [SELECT a.*, b."col" as "admin:level", ...] on one joined pair. *)
Definition select_row (levels partition_columns : list string)
  (pair : Row * option Row) : list (string * Value) :=
  let admin_columns :=
    map (fun lc =>
           ("admin:" ++ fst lc,
            match snd pair with
            | Some b => column b (snd lc)
            | None => VNull
            end)) (combine levels partition_columns) in
  (fst pair ++ admin_columns)%list.

(** The result set of the join query. *)
Definition run_join (on : JoinOn) (levels partition_columns : list string)
  (input admin : list Row) : list (list (string * Value)) :=
  map (select_row levels partition_columns) (left_join on input admin).

(** The points of a geometry, and what it is for a bbox value to bound
    them. *)
Variable covers : Geom -> Q -> Q -> Prop.



End JoinSemantics.

Arguments VNull {Geom}.
Arguments VText {Geom} s.
Arguments VBBox {Geom} b.

(** ** Sample worlds, requests and tables *)

Module Sample.

(** A file system is the list of the paths that exist. *)
Definition FS : Type := list string.
Definition Meta : Type := unit.

Definition optimal_bbox : BboxInfo :=
  {| status := "optimal"; bbox_column_name := Some "bbox";
     has_bbox_column := true; message := "" |}.

Definition missing_bbox : BboxInfo :=
  {| status := "missing"; bbox_column_name := None;
     has_bbox_column := false; message := "No bbox column found" |}.

(** Helpers and an engine that always succeed. Writing a file adds its
    path; a file holds a bbox column once [bbox:] followed by its path
    exists. *)
Definition ext : Externals FS Meta :=
  {| os_path_exists := fun fs path => PyStr.mem path fs;
     safe_file_url := fun _ path _ => Ok path;
     find_primary_geometry_column := fun _ _ _ => Ok "geometry";
     check_bbox_structure := fun fs path _ =>
       Ok (if PyStr.mem ("bbox:" ++ path) fs then optimal_bbox
           else missing_bbox);
     get_parquet_metadata := fun _ _ _ => Ok tt;
     add_bbox := fun fs path _ _ => (Ok tt, ("bbox:" ++ path) :: fs);
     engine_execute := fun _ _ _ => Ok [100%Z; 60%Z];
     write_parquet_with_metadata := fun fs _ _ output _ _ =>
       (Ok tt, output :: fs) |}.

(** The same, on a machine where the engine cannot fetch extensions. *)
Definition ext_offline : Externals FS Meta :=
  {| os_path_exists := os_path_exists ext;
     safe_file_url := safe_file_url ext;
     find_primary_geometry_column := find_primary_geometry_column ext;
     check_bbox_structure := check_bbox_structure ext;
     get_parquet_metadata := get_parquet_metadata ext;
     add_bbox := add_bbox ext;
     engine_execute := fun _ _ sql =>
       if String.prefix "INSTALL" sql
       then Raise (EngineError "IO Error: Failed to download extension")
       else Ok [100%Z; 60%Z];
     write_parquet_with_metadata := write_parquet_with_metadata ext |}.

Definition world0 : World FS :=
  {| w_fs := ["in.parquet"; "bbox:in.parquet"]; w_con := NoSession;
     w_log := [] |}.

Definition request (dataset : string) (lvls : list string)
  (source : option string) (dry : bool) : JoinRequest :=
  {| input_parquet := "in.parquet"; output_parquet := "out.parquet";
     dataset_name := dataset; levels := lvls; dataset_source := source;
     add_bbox_flag := false; dry_run := dry; verbose := false;
     compression := "ZSTD"; compression_level := None;
     row_group_size_mb := None; row_group_rows := None |}.

Definition run (e : Externals FS Meta) (rq : JoinRequest)
  : Result unit * World FS :=
  add_admin_divisions_multi e AdminDatasetFactory._datasets rq world0.

(** The texts echoed in a log. *)
Definition echoed (l : list Event) : list string :=
  flat_map (fun e => match e with EvEcho o => [text o] | _ => [] end) l.

(** The statements sent to [con.execute] in a log. *)
Definition executed (l : list Event) : list string :=
  flat_map (fun e => match e with EvExecute sql => [sql] | _ => [] end) l.

(** The queries handed to [write_parquet_with_metadata] in a log. *)
Definition written (l : list Event) : list string :=
  flat_map (fun e => match e with EvWrite q _ => [q] | _ => [] end) l.

(** Geometries as finite sets of points. *)
Definition Geom : Type := list (Q * Q).

Definition same_point (p q : Q * Q) : bool :=
  Qeq_bool (fst p) (fst q) && Qeq_bool (snd p) (snd q).

Definition st_intersects (g h : Geom) : bool :=
  existsb (fun p => existsb (same_point p) h) g.



Definition box (x0 x1 y0 y1 : Z) : BBox :=
  {| xmin := inject_Z x0; xmax := inject_Z x1;
     ymin := inject_Z y0; ymax := inject_Z y1 |}.

Definition pt (x y : Z) : Q * Q := (inject_Z x, inject_Z y).

Definition feature (name : string) (g : Geom) (b : BBox) : Row Geom :=
  [("name", VText name); ("geometry", VGeom g); ("bbox", VBBox b)].


Definition admin_rows : list (Row Geom) :=
  [feature "A" [pt 0 0; pt 1 1; pt 2 2] (box 0 2 0 2);
   feature "B" [pt 4 4; pt 6 7] (box 4 6 4 7)].

End Sample.

(** ** Reasoning about computations *)

Section Logic.

Variable FS : Type.

(** [m] keeps [I], whether it returns or raises. *)
Definition keeps {A : Type} (I : World FS -> Prop) (m : M FS A) : Prop :=
  forall w, I w -> I (snd (m w)).

(** From [P], a normal return of [m] establishes [Q]. *)
Definition okp {A : Type} (P : World FS -> Prop) (m : M FS A)
  (Q : A -> World FS -> Prop) : Prop :=
  forall w a w', P w -> m w = (Ok a, w') -> Q a w'.

(** The world [w] has the files of [w0], and its log is the log of [w0]
    followed by events that all satisfy [ok]. *)
Definition extends_with (ok : Event -> Prop) (w0 w : World FS) : Prop :=
  w_fs w = w_fs w0 /\
  exists new, w_log w = (w_log w0 ++ new)%list /\ Forall ok new.

Definition session_open (w : World FS) : Prop :=
  exists history, w_con w = SessionOpen history.

Definition session_closed (w : World FS) : Prop :=
  exists history, w_con w = SessionClosed history.

(** [P] looks at the session only. *)
Definition con_only (P : World FS -> Prop) : Prop :=
  forall w fs' log', P w ->
    P {| w_fs := fs'; w_con := w_con w; w_log := log' |}.




End Logic.

(** The events a dry run may produce: echoes, the session being opened and
    closed, and the statements that set a session up. *)
Definition dry_run_event (e : Event) : Prop :=
  match e with
  | EvEcho _ | EvConnect | EvClose => True
  | EvExecute sql => In sql QueryText.setup_statements
  | EvGetMetadata _ | EvAddBbox _ _ | EvWrite _ _ => False
  end.

(** ** Events of a join request *)

Section LogLogic.

Variable FS : Type.

(** The log of [w] is the log of [w0] followed by events that all satisfy
    [ok], and the session of [w] satisfies [C]; the files may differ. *)
Definition evolves (ok : Event -> Prop) (C : ConState -> Prop)
  (w0 w : World FS) : Prop :=
  (exists new, w_log w = (w_log w0 ++ new)%list /\ Forall ok new) /\
  C (w_con w).

(** [m] always returns. *)
Definition never_raises {A : Type} (m : M FS A) : Prop :=
  forall w, exists a, fst (m w) = Ok a.

(** [m] keeps [I] whenever it raises. *)
Definition keeps_on_error {A : Type} (I : World FS -> Prop) (m : M FS A)
  : Prop :=
  forall w, I w ->
    match m w with
    | (Raise _, w') => I w'
    | (Ok _, _) => True
    end.

(** Since [w0], the log has gained the event [e]. *)
Definition gained (e : Event) (w0 w : World FS) : Prop :=
  exists new, w_log w = (w_log w0 ++ new)%list /\ In e new.

(** The session is open and has run the statements [h], in that order. *)
Definition history_is (h : list string) (w : World FS) : Prop :=
  w_con w = SessionOpen h.


End LogLogic.

(** What a join request may do, event by event: echo, open and close its
    session, send a set-up statement, the row count of the input, the
    statistics query or the count of one requested level; outside dry-run
    mode, fetch the metadata of the input, write a join query to the output
    and, when [add_bbox_flag] is set, add a column [bbox] to the input. *)
Definition join_event (rq : JoinRequest) (e : Event) : Prop :=
  match e with
  | EvEcho _ | EvConnect | EvClose => True
  | EvExecute sql =>
      In sql QueryText.setup_statements \/
      (dry_run rq = false /\
       ((exists url, sql = "SELECT COUNT(*) FROM '" ++ url ++ "'") \/
        sql = QueryText.stats_query (levels rq) (output_parquet rq) \/
        (exists level, In level (levels rq) /\
                       sql = QueryText.count_query level (output_parquet rq))))
  | EvGetMetadata path => path = input_parquet rq /\ dry_run rq = false
  | EvAddBbox path column =>
      path = input_parquet rq /\ column = "bbox" /\
      add_bbox_flag rq = true /\ dry_run rq = false
  | EvWrite query output =>
      output = output_parquet rq /\ dry_run rq = false /\
      exists sc url ref ibc abc agc igc,
        query = QueryText.build_query sc url ref ibc abc agc igc
  end.


(** What the query handed to the writer looks like, for the request [rq]
    on input URL [input_url] and admin source [source]. *)
Definition join_query_of (rq : JoinRequest) (input_url source query : string)
  : Prop :=
  PyStr.occurs_in ("FROM '" ++ input_url ++ "' a") query /\
  PyStr.occurs_in ("LEFT JOIN '" ++ source ++ "' b") query /\
  PyStr.occurs_in "ST_Intersects(" query /\
  forall level, In level (levels rq) ->
    PyStr.occurs_in (PyStr.dq ++ "admin:" ++ level ++ PyStr.dq) query.

Definition not_close (e : Event) : Prop := e <> EvClose.

Definition is_echo (e : Event) : Prop :=
  match e with EvEcho _ => True | _ => False end.

(** ** [add_h3]

    [geoparquet_tools.core.add_h3.add_h3]. Its engine statements may write
    files (the [COPY ... TO]), and it calls [update_metadata] of
    [geoparquet_tools.core.common]. *)

Module AddH3.

Import PyStr.

Inductive Event : Type :=
| Echo (s : string)                 (* click.echo(s) *)
| Connect                           (* duckdb.connect() *)
| Execute (sql : string)            (* con.execute(sql) *)
| UpdateMetadata (path : string).   (* update_metadata(path, metadata) *)

Section WithFiles.

Variables FS Meta : Type.

Record Externals : Type := {
  safe_file_url : FS -> string -> bool -> Result string;
  get_parquet_metadata : FS -> string -> bool -> Result Meta;
  find_primary_geometry_column : FS -> string -> bool -> Result string;
  (* [bool(metadata)] *)
  truth : Meta -> bool;
  update_metadata : FS -> string -> Meta -> Result unit * FS;
  (* the row [fetchone()] yields for a statement and the files it leaves,
     given the statements the session ran before *)
  engine_execute : FS -> list string -> string -> Result (list Z) * FS
}.

Record State : Type := {
  fs : FS;
  con : ConState;
  log : list Event
}.

Definition T (A : Type) : Type := State -> Result A * State.

Definition ret {A : Type} (a : A) : T A := fun st => (Ok a, st).

Definition raise {A : Type} (e : exn) : T A := fun st => (Raise e, st).

Definition bind {A B : Type} (m : T A) (k : A -> T B) : T B :=
  fun st =>
    match m st with
    | (Ok a, st') => k a st'
    | (Raise e, st') => (Raise e, st')
    end.

Definition when (b : bool) (m : T unit) : T unit :=
  if b then m else ret tt.

Variable ext : Externals.

Definition click_echo (s : string) : T unit :=
  fun st => (Ok tt, {| fs := fs st; con := con st;
                       log := (log st ++ [Echo s])%list |}).

Definition duckdb_connect : T unit :=
  fun st => (Ok tt, {| fs := fs st; con := SessionOpen [];
                       log := (log st ++ [Connect])%list |}).

(** [con.execute(sql).fetchone()]; a statement that fails leaves the history
    of the session as it was. *)
Definition con_execute (sql : string) : T (list Z) :=
  fun st =>
    match con st with
    | SessionOpen history =>
        match engine_execute ext (fs st) history sql with
        | (Ok row, fs') =>
            (Ok row, {| fs := fs';
                        con := SessionOpen (history ++ [sql])%list;
                        log := (log st ++ [Execute sql])%list |})
        | (Raise e, fs') =>
            (Raise e, {| fs := fs'; con := con st;
                         log := (log st ++ [Execute sql])%list |})
        end
    | _ =>
        (Raise (EngineError "Connection already closed!"),
         {| fs := fs st; con := con st;
            log := (log st ++ [Execute sql])%list |})
    end.

(** [row[i]] *)
Definition row_item (row : list Z) (i : nat) : T Z :=
  match nth_error row i with
  | Some v => ret v
  | None => raise (IndexError "tuple index out of range")
  end.

Definition call_safe_file_url (path : string) (v : bool) : T string :=
  fun st => (safe_file_url ext (fs st) path v, st).

Definition call_get_parquet_metadata (path : string) (v : bool) : T Meta :=
  fun st => (get_parquet_metadata ext (fs st) path v, st).

Definition call_find_primary_geometry_column (path : string) (v : bool)
  : T string :=
  fun st => (find_primary_geometry_column ext (fs st) path v, st).

Definition call_update_metadata (path : string) (metadata : Meta) : T unit :=
  fun st =>
    let '(r, fs') := update_metadata ext (fs st) path metadata in
    (r, {| fs := fs'; con := con st;
           log := (log st ++ [UpdateMetadata path])%list |}).

(** The [COPY] statement [add_h3] builds. *)
Definition query (geometry_column : string) (resolution : Z)
  (column_name input_url output_parquet : string) : string :=
  nl ++ "    COPY (" ++ nl
  ++ "        SELECT " ++ nl
  ++ "            *," ++ nl
  ++ "            h3_latlng_to_cell_string(" ++ nl
  ++ "                ST_Y(ST_Centroid(" ++ geometry_column ++ ")), " ++ nl
  ++ "                ST_X(ST_Centroid(" ++ geometry_column ++ ")), " ++ nl
  ++ "                " ++ of_Z resolution ++ nl
  ++ "            ) AS " ++ dq ++ column_name ++ dq ++ nl
  ++ "        FROM '" ++ input_url ++ "'" ++ nl
  ++ "    )" ++ nl
  ++ "    TO '" ++ output_parquet ++ "'" ++ nl
  ++ "    (FORMAT PARQUET, COMPRESSION ZSTD);" ++ nl
  ++ "    ".

Definition load_statements : list string :=
  ["INSTALL spatial;"; "LOAD spatial;"; "INSTALL h3 FROM community;";
   "LOAD h3;"].

Definition count_query (output_parquet : string) : string :=
  "SELECT COUNT(*) FROM '" ++ output_parquet ++ "'".

Definition add_h3 (input_parquet output_parquet : string) (resolution : Z)
  (column_name : string) (verbose : bool) : T unit :=
  (* Get safe URL for input file *)
  bind (call_safe_file_url input_parquet verbose) (fun input_url =>
  (* Get metadata before processing *)
  bind (call_get_parquet_metadata input_parquet verbose) (fun metadata =>
  (* Get geometry column name *)
  bind (call_find_primary_geometry_column input_parquet verbose)
    (fun geometry_column =>
  bind (when verbose
          (click_echo ("Using geometry column: " ++ geometry_column)))
    (fun _ =>
  (* Create DuckDB connection and load extensions *)
  bind duckdb_connect (fun _ =>
  bind (con_execute "INSTALL spatial;") (fun _ =>
  bind (con_execute "LOAD spatial;") (fun _ =>
  bind (con_execute "INSTALL h3 FROM community;") (fun _ =>
  bind (con_execute "LOAD h3;") (fun _ =>
  bind (when verbose
          (click_echo ("Adding H3 cells at resolution " ++ of_Z resolution)))
    (fun _ =>
  (* Build and execute query to add H3 cells *)
  bind (con_execute (query geometry_column resolution column_name input_url
                       output_parquet)) (fun _ =>
  (* Update metadata *)
  bind (if truth ext metadata then
          bind (call_update_metadata output_parquet metadata) (fun _ =>
          when verbose
            (click_echo "Updated output file with original metadata"))
        else ret tt) (fun _ =>
  bind (when verbose
          (* Get count of features processed *)
          (bind (con_execute (count_query output_parquet)) (fun row =>
           bind (row_item row 0) (fun count =>
           click_echo ("Added H3 cells to " ++ format_comma count
                         ++ " features"))))) (fun _ =>
  click_echo ("Successfully wrote output to: " ++ output_parquet)))))))))))))).

End WithFiles.

(** A file system as the list of the paths that exist, a metadata
    dictionary as an association list, helpers that succeed and an engine
    whose [COPY] creates the output. *)
Definition sample_ext : Externals (list string) (list (string * string)) :=
  {| safe_file_url := fun _ path _ => Ok path;
     get_parquet_metadata := fun _ _ _ => Ok [("geo", "{}")];
     find_primary_geometry_column := fun _ _ _ => Ok "geometry";
     truth := fun md => match md with [] => false | _ :: _ => true end;
     update_metadata := fun fs _ _ => (Ok tt, fs);
     engine_execute := fun fs _ sql =>
       (Ok [100%Z],
        if contains sql "COPY (" then ("out.parquet" :: fs)%list else fs) |}.

Definition sample_state : State (list string) :=
  {| fs := ["in.parquet"]; con := NoSession; log := [] |}.

End AddH3.

(** * Properties *)

(** ** Strings *)

Example format_comma_1234567 : PyStr.format_comma 1234567 = "1,234,567".
Proof. reflexivity. Qed.

Example format_comma_1000 : PyStr.format_comma 1000 = "1,000".
Proof. reflexivity. Qed.

Example format_comma_999 : PyStr.format_comma 999 = "999".
Proof. reflexivity. Qed.

Example lower_zstd : PyStr.lower "ZSTD" = "zstd".
Proof. reflexivity. Qed.

Lemma append_assoc (a b c : string) : (a ++ b) ++ c = a ++ (b ++ c).
Proof. induction a as [|x a IH]; simpl; [reflexivity | now rewrite IH]. Qed.

Lemma append_empty_r (a : string) : a ++ "" = a.
Proof. induction a as [|x a IH]; simpl; [reflexivity | now rewrite IH]. Qed.

Lemma occurs_in_refl (s : string) : PyStr.occurs_in s s.
Proof. exists "", "". simpl. now rewrite append_empty_r. Qed.

Lemma occurs_in_app_l (s t u : string) :
  PyStr.occurs_in s t -> PyStr.occurs_in s (u ++ t).
Proof.
  intros (pre & post & ->). exists (u ++ pre), post.
  now rewrite append_assoc.
Qed.

Lemma occurs_in_app_r (s t u : string) :
  PyStr.occurs_in s t -> PyStr.occurs_in s (t ++ u).
Proof.
  intros (pre & post & ->). exists pre, (post ++ u).
  now rewrite !append_assoc.
Qed.

Lemma occurs_in_head (s u : string) : PyStr.occurs_in s (s ++ u).
Proof. apply occurs_in_app_r, occurs_in_refl. Qed.

Lemma occurs_in_trans (s t u : string) :
  PyStr.occurs_in s t -> PyStr.occurs_in t u -> PyStr.occurs_in s u.
Proof.
  intros (p1 & q1 & ->) (p2 & q2 & ->).
  exists (p2 ++ p1), (q1 ++ q2). now rewrite !append_assoc.
Qed.

Create HintDb occurs.
#[local] Hint Resolve occurs_in_refl occurs_in_app_l occurs_in_app_r
  occurs_in_head : occurs.

(** Every item of a list occurs in the list joined. *)
Lemma occurs_in_join (sep x : string) (items : list string) :
  In x items -> PyStr.occurs_in x (PyStr.join sep items).
Proof.
  unfold PyStr.join.
  induction items as [|y [|z r] IH]; intros Hin.
  - contradiction.
  - destruct Hin as [-> | []]. apply occurs_in_refl.
  - destruct Hin as [-> | Hin].
    + apply occurs_in_head.
    + change (PyStr.occurs_in x (y ++ sep ++ String.concat sep (z :: r))).
      auto with occurs.
Qed.

(** The program [contains] finds what [occurs_in] describes. *)
Lemma prefix_occurs (needle hay : string) :
  String.prefix needle hay = true -> exists post, hay = needle ++ post.
Proof.
  revert hay; induction needle as [|c n IH]; intros hay H.
  - exists hay. reflexivity.
  - destruct hay as [|d h]; simpl in H; [discriminate|].
    destruct (Ascii.ascii_dec c d) as [->|]; [|discriminate].
    destruct (IH _ H) as (post & ->). now exists post.
Qed.

Lemma occurs_prefix (needle post : string) :
  String.prefix needle (needle ++ post) = true.
Proof.
  induction needle as [|c n IH]; simpl.
  - now destruct post.
  - destruct (Ascii.ascii_dec c c); [assumption | congruence].
Qed.

Lemma contains_occurs_in (hay needle : string) :
  PyStr.contains hay needle = true <-> PyStr.occurs_in needle hay.
Proof.
  split.
  - induction hay as [|c h IH]; cbn [PyStr.contains]; intros H.
    + rewrite orb_false_r in H. destruct (prefix_occurs _ _ H) as (post & ->).
      apply occurs_in_head.
    + apply orb_true_iff in H as [H | H].
      * destruct (prefix_occurs _ _ H) as (post & ->). apply occurs_in_head.
      * destruct (IH H) as (pre & post & ->).
        exists (String c pre), post. reflexivity.
  - intros (pre & post & ->).
    induction pre as [|c p IH].
    + change ("" ++ needle ++ post) with (needle ++ post).
      destruct (needle ++ post) eqn:E; cbn [PyStr.contains]; rewrite <- E;
        rewrite occurs_prefix; reflexivity.
    + change (String c p ++ needle ++ post)
        with (String c (p ++ needle ++ post)).
      cbn [PyStr.contains]. rewrite IH. apply orb_true_r.
Qed.

Lemma mem_In (x : string) (items : list string) :
  PyStr.mem x items = true <-> In x items.
Proof.
  unfold PyStr.mem. rewrite existsb_exists. split.
  - intros (y & Hy & E). apply String.eqb_eq in E. now subst.
  - intros H. exists x. split; [assumption | apply String.eqb_refl].
Qed.

(** ** Dictionaries *)

Lemma keys_set (V : Type) (k k' : string) (v : V) (d : Dict.t V) :
  In k' (Dict.keys (Dict.set k v d)) <-> k' = k \/ In k' (Dict.keys d).
Proof.
  induction d as [|[k0 v0] d IH]; simpl.
  - intuition.
  - destruct (String.eqb_spec k k0) as [-> | Hne]; simpl.
    + intuition.
    + rewrite IH. intuition.
Qed.

Lemma get_set_same (V : Type) (k : string) (v : V) (d : Dict.t V) :
  Dict.get k (Dict.set k v d) = Some v.
Proof.
  induction d as [|[k0 v0] d IH]; simpl.
  - now rewrite String.eqb_refl.
  - destruct (String.eqb_spec k k0) as [-> | Hne]; simpl.
    + now rewrite String.eqb_refl.
    + destruct (String.eqb_spec k k0); [contradiction | assumption].
Qed.

Lemma get_set_other (V : Type) (k k' : string) (v : V) (d : Dict.t V) :
  k' <> k -> Dict.get k' (Dict.set k v d) = Dict.get k' d.
Proof.
  intros Hne. induction d as [|[k0 v0] d IH]; simpl.
  - destruct (String.eqb_spec k' k); [contradiction | reflexivity].
  - destruct (String.eqb_spec k k0) as [-> | Hk]; simpl.
    + destruct (String.eqb_spec k' k0); [contradiction | reflexivity].
    + destruct (String.eqb_spec k' k0); [reflexivity | assumption].
Qed.


Section Comprehension.

Lemma identity_keys (items : list string) (d : Dict.t string) (k : string) :
  In k (Dict.keys (fold_left (fun d x => Dict.set x x d) items d))
  <-> In k items \/ In k (Dict.keys d).
Proof.
  revert d; induction items as [|x r IH]; intros d; simpl.
  - intuition.
  - rewrite IH, keys_set. intuition.
Qed.


Lemma identity_get (items : list string) (d : Dict.t string) (k : string) :
  (forall k', Dict.get k' d = None \/ Dict.get k' d = Some k') ->
  In k items \/ Dict.get k d = Some k ->
  Dict.get k (fold_left (fun d x => Dict.set x x d) items d) = Some k.
Proof.
  revert d; induction items as [|x r IH]; intros d Hd H; simpl.
  - destruct H as [[] | H]. assumption.
  - apply IH.
    + intros k'. destruct (String.eqb_spec k' x) as [-> | Hne].
      * right. apply get_set_same.
      * rewrite get_set_other by assumption. apply Hd.
    + destruct (String.eqb_spec k x) as [-> | Hne].
      * right. apply get_set_same.
      * rewrite get_set_other by assumption.
        destruct H as [[E | H] | H]; [congruence | now left | now right].
Qed.

End Comprehension.

Lemma comprehension_keys (cols : list string) (k : string) :
  In k (Dict.keys (Dict.comprehension (fun c => c) (fun c => c) cols))
  <-> In k cols.
Proof.
  unfold Dict.comprehension. rewrite identity_keys. simpl. intuition.
Qed.


Lemma comprehension_get (cols : list string) (k : string) :
  In k cols ->
  Dict.get k (Dict.comprehension (fun c => c) (fun c => c) cols) = Some k.
Proof.
  intros H. apply identity_get; [now left | now left].
Qed.

(** ** The admin-dataset contract *)

Section Contract.

Import AdminDatasets.




Lemma mapping_total (self : AdminDataset) (level : string) :
  In level (get_available_levels self) ->
  exists col, Dict.get level (get_level_column_mapping self) = Some col.
Proof.
  destruct self; simpl; intros H.
  - destruct H as [<- | []]. eexists; reflexivity.
  - destruct H as [<- | [<- | [<- | []]]]; eexists; reflexivity.
  - destruct H as [<- | [<- | []]]; eexists; reflexivity.
  - exists level. now apply comprehension_get.
Qed.

End Contract.



(** ** Level validation *)

Lemma invalid_levels_spec (self : AdminDataset) (levels : list string)
  (level : string) :
  In level (AdminDatasets.invalid_levels self levels)
  <-> In level levels /\ ~ In level (AdminDatasets.get_available_levels self).
Proof.
  unfold AdminDatasets.invalid_levels. rewrite filter_In.
  rewrite negb_true_iff, <- not_true_iff_false, mem_In. reflexivity.
Qed.

Lemma invalid_levels_nil (self : AdminDataset) (levels : list string) :
  AdminDatasets.invalid_levels self levels = [] <->
  forall level, In level levels ->
                In level (AdminDatasets.get_available_levels self).
Proof.
  split.
  - intros E level Hin.
    destruct (in_dec string_dec level (AdminDatasets.get_available_levels self))
      as [|Hn]; [assumption|].
    assert (H : In level (AdminDatasets.invalid_levels self levels))
      by (apply invalid_levels_spec; split; assumption).
    rewrite E in H. contradiction.
  - intros H.
    destruct (AdminDatasets.invalid_levels self levels) as [|x r] eqn:E;
      [reflexivity|].
    assert (Hx : In x (AdminDatasets.invalid_levels self levels))
      by (rewrite E; now left).
    apply invalid_levels_spec in Hx as [Hin Hn]. elim Hn. now apply H.
Qed.

(** C6. When some requested level is not available, [validate_levels] raises
    a usage error whose message names every requested level that is not
    available and every available level; when all requested levels are
    available it returns. *)
Theorem validate_levels_reports_every_invalid_level
  (self : AdminDataset) (levels : list string) :
  ((exists level, In level levels /\
                  ~ In level (AdminDatasets.get_available_levels self)) ->
   exists msg,
     AdminDatasets.validate_levels self levels = Raise (UsageError msg) /\
     (forall level, In level levels ->
        ~ In level (AdminDatasets.get_available_levels self) ->
        PyStr.occurs_in level msg) /\
     (forall level, In level (AdminDatasets.get_available_levels self) ->
        PyStr.occurs_in level msg) /\
     PyStr.occurs_in
       (PyStr.join ", " (AdminDatasets.invalid_levels self levels)) msg /\
     PyStr.occurs_in
       (PyStr.join ", " (AdminDatasets.get_available_levels self)) msg) /\
  ((forall level, In level levels ->
                  In level (AdminDatasets.get_available_levels self)) ->
   AdminDatasets.validate_levels self levels = Ok tt).
Proof.
  split.
  - intros (bad & Hin & Hn).
    unfold AdminDatasets.validate_levels.
    destruct (AdminDatasets.invalid_levels self levels) as [|x r] eqn:E.
    + assert (H : In bad (AdminDatasets.invalid_levels self levels))
        by (apply invalid_levels_spec; split; assumption).
      rewrite E in H. contradiction.
    + eexists. split; [reflexivity|].
      assert (Hinv : PyStr.occurs_in (PyStr.join ", " (x :: r))
                       ("Invalid levels for "
                          ++ AdminDatasets.get_dataset_name self ++ ": "
                          ++ PyStr.join ", " (x :: r) ++ ". "
                          ++ "Available levels: "
                          ++ PyStr.join ", "
                               (AdminDatasets.get_available_levels self)))
        by auto 10 with occurs.
      assert (Hav : PyStr.occurs_in
                      (PyStr.join ", " (AdminDatasets.get_available_levels self))
                      ("Invalid levels for "
                         ++ AdminDatasets.get_dataset_name self ++ ": "
                         ++ PyStr.join ", " (x :: r) ++ ". "
                         ++ "Available levels: "
                         ++ PyStr.join ", "
                              (AdminDatasets.get_available_levels self)))
        by auto 10 with occurs.
      repeat split; try assumption.
      * intros level Hl Hnl.
        eapply occurs_in_trans; [|exact Hinv].
        apply occurs_in_join. rewrite <- E.
        apply invalid_levels_spec. split; assumption.
      * intros level Hl.
        eapply occurs_in_trans; [|exact Hav].
        now apply occurs_in_join.
  - intros H. apply invalid_levels_nil in H.
    unfold AdminDatasets.validate_levels. now rewrite H.
Qed.

(** Both branches of C6 on the Overture dataset: two unknown levels are both
    reported, and the two levels of the dataset are accepted. *)
Lemma validate_levels_on_overture :
  (exists msg,
     AdminDatasets.validate_levels (OvertureAdminDataset None false)
       ["province"; "country"; "county"] = Raise (UsageError msg) /\
     PyStr.occurs_in "province" msg /\ PyStr.occurs_in "county" msg /\
     PyStr.occurs_in "country, region" msg) /\
  AdminDatasets.validate_levels (OvertureAdminDataset None false)
    ["region"; "country"] = Ok tt.
Proof.
  split.
  - destruct (proj1 (validate_levels_reports_every_invalid_level
                       (OvertureAdminDataset None false)
                       ["province"; "country"; "county"]))
      as (msg & E & Hbad & _ & _ & Hav).
    + exists "province". split; [simpl; tauto|].
      simpl. intros [H | [H | []]]; discriminate H.
    + exists msg. split; [exact E|]. split; [|split].
      * apply Hbad; [simpl; tauto|].
        simpl. intros [H | [H | []]]; discriminate H.
      * apply Hbad; [simpl; tauto|].
        simpl. intros [H | [H | []]]; discriminate H.
      * exact Hav.
  - apply (proj2 (validate_levels_reports_every_invalid_level
                    (OvertureAdminDataset None false) ["region"; "country"])).
    simpl. intros level [<- | [<- | []]]; tauto.
Defined.

Example validate_levels_message :
  AdminDatasets.validate_levels (OvertureAdminDataset None false) ["province"]
  = Raise (UsageError
      "Invalid levels for Overture Maps Divisions: province. Available levels: country, region").
Proof. reflexivity. Qed.

(** ** The factory *)


Lemma instantiate_abstract (c : AdminClass) (sp : option string) (v : bool) :
  AdminDatasetFactory.abstractmethods c <> [] ->
  AdminDatasetFactory.instantiate c sp v
  = Raise (AdminDatasetFactory.abstract_error c).
Proof. destruct c; simpl; intros H; solve [reflexivity | now elim H]. Qed.




(** The built-in identifiers are served by concrete classes. *)
Example create_builtin :
  AdminDatasetFactory.create AdminDatasetFactory._datasets "gaul" None false
  = Ok (GAULAdminDataset None false).
Proof. reflexivity. Qed.

Example create_unknown :
  AdminDatasetFactory.create AdminDatasetFactory._datasets "osm" None false
  = Raise (UsageError
      "Unknown admin dataset: osm. Available: current, gaul, overture").
Proof. reflexivity. Qed.

Example create_custom_is_abstract :
  AdminDatasetFactory.create_custom (Some "b.parquet") ["region_name"] "geom"
    None false
  = Raise (AdminDatasetFactory.abstract_error CustomAdminDataset_cls).
Proof. reflexivity. Qed.

(** ** Source resolution *)

Lemma default_source_without_override (self : AdminDataset) :
  AdminDatasets.get_default_source (AdminDatasets.without_override self)
  = AdminDatasets.get_default_source self.
Proof. destruct self; reflexivity. Qed.

Lemma get_source_without_override (self : AdminDataset) :
  AdminDatasets.get_source (AdminDatasets.without_override self)
  = AdminDatasets.get_default_source self.
Proof. destruct self; reflexivity. Qed.

Lemma verbose_without_override (self : AdminDataset) :
  AdminDatasets.verbose (AdminDatasets.without_override self)
  = AdminDatasets.verbose self.
Proof. destruct self; reflexivity. Qed.

(** C10. When the override is absent or is the empty string, [get_source] is
    [get_default_source] (its value, or the error the custom dataset raises
    there), and [is_remote] and [prepare_data_source] do what they do on the
    same dataset built without an override. *)
Theorem empty_override_is_no_override
  (FS Meta : Type) (ext : Externals FS Meta) (self : AdminDataset) :
  AdminDatasets.source_path self = None \/
  AdminDatasets.source_path self = Some "" ->
  AdminDatasets.get_source self = AdminDatasets.get_default_source self /\
  AdminDatasets.is_remote self
  = AdminDatasets.is_remote (AdminDatasets.without_override self) /\
  forall w : World FS,
    prepare_data_source ext self w
    = prepare_data_source ext (AdminDatasets.without_override self) w.
Proof.
  intros H.
  assert (E : AdminDatasets.get_source self
              = AdminDatasets.get_default_source self).
  { unfold AdminDatasets.get_source. destruct H as [-> | ->]; reflexivity. }
  assert (R : AdminDatasets.is_remote self
              = AdminDatasets.is_remote (AdminDatasets.without_override self)).
  { unfold AdminDatasets.is_remote.
    now rewrite E, get_source_without_override. }
  split; [exact E|]. split; [exact R|].
  intros w. unfold prepare_data_source.
  now rewrite <- R, E, get_source_without_override, verbose_without_override.
Qed.

(** C10 on the GAUL dataset given an empty override: the default source is
    used, and it is remote. *)
Lemma empty_override_on_gaul :
  AdminDatasets.get_source (GAULAdminDataset (Some "") false)
  = Ok "s3://nlebovits/gaul-l2-admin/by_country/*.parquet" /\
  AdminDatasets.is_remote (GAULAdminDataset (Some "") false) = Ok true /\
  fst (prepare_data_source Sample.ext (GAULAdminDataset (Some "") false)
         Sample.world0)
  = Ok "'s3://nlebovits/gaul-l2-admin/by_country/*.parquet'".
Proof.
  destruct (empty_override_is_no_override Sample.ext
              (GAULAdminDataset (Some "") false) (or_intror eq_refl))
    as (E & R & P).
  rewrite E, R, (P Sample.world0). repeat split; reflexivity.
Defined.

Example explicit_override_wins :
  AdminDatasets.get_source (GAULAdminDataset (Some "/data/gaul.parquet") false)
  = Ok "/data/gaul.parquet".
Proof. reflexivity. Qed.

(** ** Rules for computations *)

Section Rules.

Variables FS Meta : Type.
Variable ext : Externals FS Meta.

Local Open Scope py_scope.

Lemma keeps_ret (A : Type) (I : World FS -> Prop) (a : A) : keeps I (ret a).
Proof. intros w H. exact H. Qed.

Lemma keeps_raise (A : Type) (I : World FS -> Prop) (e : exn) :
  keeps I (raise (A := A) e).
Proof. intros w H. exact H. Qed.

Lemma keeps_lift (A : Type) (I : World FS -> Prop) (r : Result A) :
  keeps I (lift r).
Proof. intros w H. exact H. Qed.

Lemma keeps_bind (A B : Type) (I : World FS -> Prop) (m : M FS A)
  (k : A -> M FS B) :
  keeps I m -> (forall a, keeps I (k a)) -> keeps I (bind m k).
Proof.
  intros Hm Hk w H. unfold bind. specialize (Hm w H).
  destruct (m w) as [[a | e] w1]; simpl in *.
  - apply Hk, Hm.
  - exact Hm.
Qed.

Lemma keeps_when (I : World FS -> Prop) (b : bool) (m : M FS unit) :
  keeps I m -> keeps I (when b m).
Proof. destruct b; simpl; [trivial | intros _; apply keeps_ret]. Qed.

Lemma keeps_mapM (A B : Type) (I : World FS -> Prop) (f : A -> M FS B)
  (l : list A) :
  (forall x, keeps I (f x)) -> keeps I (mapM f l).
Proof.
  intros Hf. induction l as [|x r IH]; simpl.
  - apply keeps_ret.
  - apply keeps_bind; [apply Hf|]. intros y.
    apply keeps_bind; [apply IH|]. intros ys. apply keeps_ret.
Qed.

(** Helpers that only read the files keep every invariant. *)
Lemma keeps_safe_file_url I path v :
  keeps I (call_safe_file_url ext path v).
Proof. intros w H. exact H. Qed.

Lemma keeps_find_primary_geometry_column I path v :
  keeps I (call_find_primary_geometry_column ext path v).
Proof. intros w H. exact H. Qed.

Lemma keeps_check_bbox_structure I path v :
  keeps I (call_check_bbox_structure ext path v).
Proof. intros w H. exact H. Qed.

Lemma keeps_os_path_exists I path :
  keeps I (call_os_path_exists ext path).
Proof. intros w H. exact H. Qed.

Section Extends.

Variable ok : Event -> Prop.
Variable w0 : World FS.

Lemma extends_refl : extends_with ok w0 w0.
Proof.
  split; [reflexivity|]. exists []. split; [|constructor].
  now rewrite app_nil_r.
Qed.

Lemma extends_log (w : World FS) (e : Event) (c : ConState) :
  ok e -> extends_with ok w0 w ->
  extends_with ok w0
    {| w_fs := w_fs w; w_con := c; w_log := (w_log w ++ [e])%list |}.
Proof.
  intros He (Hfs & new & Hlog & Hall). split; [exact Hfs|].
  exists (new ++ [e])%list. simpl. split.
  - now rewrite Hlog, app_assoc.
  - apply Forall_app. split; [assumption | now constructor].
Qed.

Lemma keeps_log (e : Event) : ok e -> keeps (extends_with ok w0) (log e).
Proof. intros He w H. now apply extends_log. Qed.

Lemma keeps_click_echo (s : string) :
  ok (EvEcho {| text := s; fg := None; bold := false |}) ->
  keeps (extends_with ok w0) (click_echo s).
Proof. apply keeps_log. Qed.

Lemma keeps_click_echo_style (s colour : string) (b : bool) :
  ok (EvEcho {| text := s; fg := Some colour; bold := b |}) ->
  keeps (extends_with ok w0) (click_echo_style s colour b).
Proof. apply keeps_log. Qed.

Lemma keeps_duckdb_connect :
  ok EvConnect -> keeps (extends_with ok w0) (duckdb_connect (FS := FS)).
Proof. intros He w H. now apply extends_log. Qed.

Lemma keeps_con_execute (sql : string) :
  ok (EvExecute sql) -> keeps (extends_with ok w0) (con_execute ext sql).
Proof.
  intros He w H. unfold con_execute.
  destruct (w_con w) as [|history|history]; simpl;
    try (now apply extends_log).
  destruct (engine_execute ext (w_fs w) history sql); simpl;
    now apply extends_log.
Qed.

Lemma keeps_con_close :
  ok EvClose -> keeps (extends_with ok w0) (con_close (FS := FS)).
Proof. intros He w H. now apply extends_log. Qed.

Lemma keeps_prepare_data_source (self : AdminDataset) :
  (forall o, ok (EvEcho o)) ->
  keeps (extends_with ok w0) (prepare_data_source ext self).
Proof.
  intros He. unfold prepare_data_source.
  apply keeps_bind; [apply keeps_lift|]. intros source.
  apply keeps_bind; [apply keeps_lift|]. intros [|].
  - apply keeps_bind; [|intros; apply keeps_ret].
    apply keeps_when, keeps_click_echo, He.
  - apply keeps_bind; [apply keeps_os_path_exists|]. intros found.
    destruct (negb found); [apply keeps_raise|].
    apply keeps_bind; [|intros; apply keeps_ret].
    apply keeps_when, keeps_click_echo, He.
Qed.

End Extends.

(** Normal returns. *)

Lemma okp_bind (A B : Type) (P : World FS -> Prop) (m : M FS A)
  (k : A -> M FS B) (Q1 : A -> World FS -> Prop) (Q : B -> World FS -> Prop) :
  okp P m Q1 -> (forall a, okp (Q1 a) (k a) Q) -> okp P (bind m k) Q.
Proof.
  intros Hm Hk w b w' HP E. unfold bind in E.
  destruct (m w) as [[a | e] w1] eqn:Em; [|discriminate].
  eapply Hk; [|exact E]. eapply Hm; [exact HP | exact Em].
Qed.

Lemma okp_weaken (A : Type) (P P' : World FS -> Prop) (m : M FS A)
  (Q Q' : A -> World FS -> Prop) :
  okp P' m Q' -> (forall w, P w -> P' w) ->
  (forall a w, Q' a w -> Q a w) -> okp P m Q.
Proof. intros H HP HQ w a w' Hw E. eapply HQ, H; eauto. Qed.

Lemma okp_any (A : Type) (P : World FS -> Prop) (m : M FS A) :
  okp P m (fun _ _ => True).
Proof. intros w a w' _ _. exact I. Qed.

Lemma okp_ret (A : Type) (P : World FS -> Prop) (a : A) :
  okp P (ret a) (fun _ => P).
Proof. intros w b w' H E. now inversion E; subst. Qed.

Lemma okp_lift_eq (A : Type) (P : World FS -> Prop) (r : Result A) :
  okp P (lift r) (fun a w => r = Ok a /\ P w).
Proof. intros w b w' H E. inversion E; subst. now split. Qed.

Lemma okp_when (P : World FS -> Prop) (b : bool) (m : M FS unit) :
  okp P m (fun _ => P) -> okp P (when b m) (fun _ => P).
Proof. destruct b; simpl; [trivial | intros _; apply okp_ret]. Qed.

Lemma okp_mapM (A B : Type) (P : World FS -> Prop) (f : A -> M FS B)
  (l : list A) :
  (forall x, okp P (f x) (fun _ => P)) -> okp P (mapM f l) (fun _ => P).
Proof.
  intros Hf. induction l as [|x r IH]; simpl.
  - apply okp_ret.
  - eapply okp_bind; [apply Hf|]. intros y.
    eapply okp_bind; [apply IH|]. intros ys. apply okp_ret.
Qed.

(** A predicate on the session alone survives whatever leaves the session
    alone. *)
Section Session.

Variable P : World FS -> Prop.
Hypothesis HP : con_only P.

Lemma okp_log (e : Event) : okp P (log e) (fun _ => P).
Proof. intros w a w' H E. inversion E; subst. now apply HP. Qed.

Lemma okp_lift (A : Type) (r : Result A) : okp P (lift r) (fun _ => P).
Proof. intros w a w' H E. inversion E; subst. exact H. Qed.

Lemma okp_get_parquet_metadata path v :
  okp P (call_get_parquet_metadata ext path v) (fun _ => P).
Proof. intros w a w' H E. inversion E; subst. now apply HP. Qed.

Lemma okp_check_bbox_structure path v :
  okp P (call_check_bbox_structure ext path v) (fun _ => P).
Proof. intros w a w' H E. inversion E; subst. exact H. Qed.

Lemma okp_os_path_exists path :
  okp P (call_os_path_exists ext path) (fun _ => P).
Proof. intros w a w' H E. inversion E; subst. exact H. Qed.

Lemma okp_add_bbox path column v :
  okp P (call_add_bbox ext path column v) (fun _ => P).
Proof.
  intros w a w' H E. unfold call_add_bbox in E.
  destruct (add_bbox ext (w_fs w) path column v). inversion E; subst.
  now apply HP.
Qed.

Lemma okp_write query output md opts :
  okp P (call_write_parquet_with_metadata ext query output md opts)
    (fun _ => P).
Proof.
  intros w a w' H E. unfold call_write_parquet_with_metadata in E.
  destruct (write_parquet_with_metadata ext _ _ _ _ _ _).
  inversion E; subst. now apply HP.
Qed.

Lemma okp_row_item row i : okp P (row_item (FS := FS) row i) (fun _ => P).
Proof.
  intros w a w' H E. unfold row_item in E.
  destruct (nth_error row i); inversion E; subst. exact H.
Qed.

Lemma okp_prepare_data_source (self : AdminDataset) :
  okp P (prepare_data_source ext self) (fun _ => P).
Proof.
  unfold prepare_data_source.
  eapply okp_bind; [apply okp_lift|]. intros source.
  eapply okp_bind; [apply okp_lift|]. intros [|].
  - eapply okp_bind; [apply okp_when, okp_log|]. intros ?. apply okp_ret.
  - eapply okp_bind; [apply okp_os_path_exists|]. intros found.
    destruct (negb found).
    + intros w a w' _ E. discriminate E.
    + eapply okp_bind; [apply okp_when, okp_log|]. intros ?.
      apply okp_ret.
Qed.

End Session.

Lemma con_only_open : con_only (session_open (FS := FS)).
Proof. intros w fs' log' (h & H). now exists h. Qed.

Lemma con_only_closed : con_only (session_closed (FS := FS)).
Proof. intros w fs' log' (h & H). now exists h. Qed.

Lemma okp_duckdb_connect (P : World FS -> Prop) :
  okp P (duckdb_connect (FS := FS)) (fun _ => session_open (FS := FS)).
Proof. intros w a w' _ E. inversion E; subst. now exists []. Qed.

Lemma okp_con_execute (sql : string) :
  okp (session_open (FS := FS)) (con_execute ext sql)
    (fun _ => session_open (FS := FS)).
Proof.
  intros w a w' (history & H) E. unfold con_execute in E. rewrite H in E.
  destruct (engine_execute ext (w_fs w) history sql); inversion E; subst.
  now eexists.
Qed.

Lemma okp_con_close :
  okp (session_open (FS := FS)) (con_close (FS := FS))
    (fun _ => session_closed (FS := FS)).
Proof.
  intros w a w' (history & H) E. inversion E; subst.
  exists history. simpl. now rewrite H.
Qed.

End Rules.

(** ** Dry runs *)

Section DryRun.

Variables FS Meta : Type.
Variable ext : Externals FS Meta.

Ltac keeps_step :=
  first
    [ match goal with
      | |- keeps ?J (when false _) => exact (keeps_ret J tt)
      end
    | apply keeps_prepare_data_source; intros; exact I
    | apply keeps_safe_file_url
    | apply keeps_find_primary_geometry_column
    | apply keeps_check_bbox_structure
    | apply keeps_click_echo; exact I
    | apply keeps_click_echo_style; exact I
    | apply keeps_duckdb_connect; exact I
    | apply keeps_con_close; exact I
    | apply keeps_con_execute; simpl; tauto
    | apply keeps_when
    | apply keeps_ret
    | apply keeps_lift
    | match goal with
      | |- keeps _ (if ?b then _ else _) => destruct b
      end
    | apply keeps_bind ].

(** Whatever its outcome, a dry run leaves the files as they are, and all
    it adds to the log are echoes, the opening and closing of the session
    and set-up statements. *)
Lemma dry_run_extends (cls : AdminDatasetFactory.registry) (rq : JoinRequest)
  (w0 : World FS) :
  dry_run rq = true ->
  keeps (extends_with dry_run_event w0) (add_admin_divisions_multi ext cls rq).
Proof.
  intros Hdry. unfold add_admin_divisions_multi. rewrite Hdry.
  cbn [negb andb]. rewrite andb_false_r.
  repeat (intros; cbv zeta; keeps_step).
Qed.

End DryRun.

(** ** The query texts *)

Section Texts.

Import PyStr.








(** Both templates are the common head followed by the rendered clause. *)
Lemma build_query_renders_join_on
  (sc url ref : string) (ibc abc : option string) (agc igc : string) :
  QueryText.build_query sc url ref ibc abc agc igc
  = JoinCondition.select_from sc url ref
    ++ JoinCondition.render (JoinCondition.join_on ibc abc agc igc) ++ nl.
Proof.
  unfold QueryText.build_query, JoinCondition.join_on.
  destruct (QueryText.use_bbox ibc abc);
    unfold QueryText.query_with_bbox, QueryText.query_exact_only,
      JoinCondition.select_from, JoinCondition.render;
    repeat rewrite append_assoc; reflexivity.
Qed.

Lemma in_combine_exists (A B : Type) (l : list A) (l' : list B) (x : A) :
  length l' = length l -> In x l -> exists y, In (x, y) (combine l l').
Proof.
  revert l'; induction l as [|a l IH]; intros [|b l'] Hlen Hin;
    try discriminate; try contradiction.
  destruct Hin as [-> | Hin].
  - exists b. now left.
  - destruct (IH l') as (y & Hy); [now injection Hlen | assumption |].
    exists y. now right.
Qed.

Lemma rmap_length (A B : Type) (f : A -> Result B) (l : list A) (l' : list B) :
  rmap f l = Ok l' -> length l' = length l.
Proof.
  revert l'; induction l as [|x l IH]; intros l' E; simpl in E.
  - now inversion E.
  - destruct (f x); [|discriminate]. simpl in E.
    destruct (rmap f l); [|discriminate]. inversion E; subst.
    simpl. f_equal. now apply IH.
Qed.

Lemma partition_columns_length (self : AdminDataset) (levels cols : list string) :
  AdminDatasets.get_partition_columns self levels = Ok cols ->
  length cols = length levels.
Proof.
  unfold AdminDatasets.get_partition_columns.
  destruct (AdminDatasets.validate_levels self levels); [|discriminate].
  apply rmap_length.
Qed.

(** The select clause carries the alias of every requested level. *)
Lemma select_clause_has_alias (levels cols : list string) (level : string) :
  length cols = length levels -> In level levels ->
  occurs_in (dq ++ "admin:" ++ level ++ dq)
    (QueryText.admin_select_clause levels cols).
Proof.
  intros Hlen Hin.
  destruct (in_combine_exists levels cols level Hlen Hin) as (col & Hc).
  apply occurs_in_trans with (QueryText.admin_select_part level col).
  - unfold QueryText.admin_select_part. cbv zeta. auto 10 with occurs.
  - apply occurs_in_join. unfold QueryText.admin_select_parts.
    apply in_map_iff. exists (level, col). split; [reflexivity | exact Hc].
Qed.



End Texts.

(** ** Two runs from the same files *)

Section TwoRuns.

Variables FS Meta : Type.
Variable ext : Externals FS Meta.
Variables l l' : list Event.


















End TwoRuns.

(** ** What a dry run prints *)

Section DryRunOutput.

Variables FS Meta : Type.
Variable ext : Externals FS Meta.

Lemma okp_bind_lift (X Y : Type) (P : World FS -> Prop) (r : Result X)
  (k : X -> M FS Y) (Q : Y -> World FS -> Prop) :
  (forall a, r = Ok a -> okp P (k a) Q) -> okp P (bind (lift r) k) Q.
Proof.
  intros Hk w b w' HP E. unfold bind, lift in E.
  destruct r as [a | e]; [|discriminate]. eapply Hk; eauto.
Qed.





End DryRunOutput.

(** ** The session on return *)

Section SessionOnReturn.

Variables FS Meta : Type.
Variable ext : Externals FS Meta.

Ltac con_only_tac := first [exact (@con_only_open FS) | exact (@con_only_closed FS)].

Ltac okp_step :=
  first
    [ match goal with
      | |- okp ?P (when false ?m) _ =>
          change (when false m) with (ret (FS := FS) tt); apply okp_ret
      end
    | apply okp_con_execute
    | apply okp_con_close
    | apply okp_prepare_data_source; con_only_tac
    | apply okp_write; con_only_tac
    | apply okp_row_item
    | apply okp_log; con_only_tac
    | apply okp_when
    | apply okp_mapM
    | apply okp_ret
    | match goal with
      | |- okp _ (if ?c then _ else _) _ => destruct c
      end
    | eapply okp_bind ].

(** If [add_admin_divisions_multi] returns, in dry-run mode or not, it has
    closed the session it opened. *)
Lemma returns_with_session_closed (cls : AdminDatasetFactory.registry)
  (rq : JoinRequest) :
  okp (fun _ => True) (add_admin_divisions_multi ext cls rq)
    (fun _ => session_closed (FS := FS)).
Proof.
  unfold add_admin_divisions_multi. cbv zeta.
  repeat match goal with
    | |- okp _ (bind (duckdb_connect (FS := _)) _) _ => fail 1
    | |- okp _ (bind _ _) _ =>
        eapply okp_bind; [apply okp_any|]; intros ?
    end.
  eapply okp_bind; [apply okp_duckdb_connect|]. intros ?.
  destruct (dry_run rq); cbn [negb andb]; rewrite ?andb_false_r, ?andb_true_r;
    repeat (intros; okp_step).
Qed.

End SessionOnReturn.

(** ** Claims about the join executor *)

(** C4, as the spec states it, fails on an error path: when the engine
    rejects a statement the exception propagates with the session still
    open, and nothing in the log closes it. *)
Lemma engine_error_leaves_session_open :
  let outcome := Sample.run Sample.ext_offline
                   (Sample.request "gaul" ["country"] None false) in
  fst outcome = Raise (EngineError "IO Error: Failed to download extension") /\
  w_con (snd outcome) = SessionOpen [] /\
  ~ In EvClose (w_log (snd outcome)).
Proof.
  vm_compute. repeat split.
  intros [H | [H | [H | []]]]; discriminate H.
Qed.

(** The same on the path where preparing a local admin source fails. *)
Example missing_admin_source_leaves_session_open :
  let outcome := Sample.run Sample.ext
                   (Sample.request "current" ["country"]
                      (Some "/data/countries.parquet") true) in
  fst outcome
  = Raise (ClickException "Data source file not found: /data/countries.parquet") /\
  w_con (snd outcome) = SessionOpen QueryText.setup_statements.
Proof. vm_compute. split; reflexivity. Qed.

(** C4, amended: on both normal exits, the early return of a dry run and the
    completion of the execute branch, the session the request opened has
    been closed when [add_admin_divisions_multi] returns. *)
Theorem session_closed_on_return
  (FS Meta : Type) (ext : Externals FS Meta)
  (cls : AdminDatasetFactory.registry) (rq : JoinRequest) (w : World FS) :
  fst (add_admin_divisions_multi ext cls rq w) = Ok tt ->
  session_closed (snd (add_admin_divisions_multi ext cls rq w)).
Proof.
  intros H.
  destruct (add_admin_divisions_multi ext cls rq w) as [r w'] eqn:E.
  simpl in *. subst r.
  exact (returns_with_session_closed ext cls rq (w := w) I E).
Qed.

(** C4 amended, on an Overture join that is executed and on a GAUL dry run. *)
Lemma session_closed_on_sample_runs :
  (fst (Sample.run Sample.ext (Sample.request "overture" ["region"] None false))
   = Ok tt /\
   session_closed
     (snd (Sample.run Sample.ext
             (Sample.request "overture" ["region"] None false)))) /\
  session_closed
    (snd (Sample.run Sample.ext
            (Sample.request "gaul" ["country"; "department"] None true))).
Proof.
  split; [split; [reflexivity|] |].
  - apply (session_closed_on_return Sample.ext AdminDatasetFactory._datasets
             (Sample.request "overture" ["region"] None false) Sample.world0).
    reflexivity.
  - apply (session_closed_on_return Sample.ext AdminDatasetFactory._datasets
             (Sample.request "gaul" ["country"; "department"] None true)
             Sample.world0).
    reflexivity.
Defined.



Example dry_run_gaul_echoes :
  nth_error
    (Sample.echoed
       (w_log (snd (Sample.run Sample.ext
                      (Sample.request "gaul" ["country"; "department"] None true)))))
    8
  = Some (QueryText.display_query
            (QueryText.build_query
               (QueryText.admin_select_clause ["country"; "department"]
                  ["gaul0_name"; "gaul2_name"])
               "in.parquet"
               "'s3://nlebovits/gaul-l2-admin/by_country/*.parquet'"
               (Some "bbox") (Some "geometry_bbox") "geometry" "geometry")
            "out.parquet" "ZSTD").
Proof. vm_compute. reflexivity. Qed.

(** C8, as the spec states it, fails: a dry run sends the set-up statements
    to the engine, and when the engine rejects one (here it cannot fetch an
    extension) the dry run raises the engine's error. *)
Lemma dry_run_raises_engine_error :
  let outcome := Sample.run Sample.ext_offline
                   (Sample.request "gaul" ["country"] None true) in
  fst outcome = Raise (EngineError "IO Error: Failed to download extension") /\
  Sample.executed (w_log (snd outcome)) = ["INSTALL spatial;"].
Proof. vm_compute. split; reflexivity. Qed.

(** C8, amended: in dry-run mode the only statements sent to the engine are
    the seven that set a session up (the two extensions installed and
    loaded, the three S3 settings); the row count, the join query and the
    statistics queries are not sent, and nothing is written. *)
Theorem dry_run_executes_only_setup
  (FS Meta : Type) (ext : Externals FS Meta)
  (cls : AdminDatasetFactory.registry) (rq : JoinRequest) (w : World FS) :
  dry_run rq = true ->
  exists new,
    w_log (snd (add_admin_divisions_multi ext cls rq w)) = (w_log w ++ new)%list /\
    (forall sql, In (EvExecute sql) new -> In sql QueryText.setup_statements) /\
    (forall query output, ~ In (EvWrite query output) new).
Proof.
  intros Hdry.
  destruct (dry_run_extends ext cls rq (w0 := w) Hdry (extends_refl _ w))
    as (_ & new & Hlog & Hall).
  exists new. split; [exact Hlog|]. rewrite Forall_forall in Hall. split.
  - intros sql Hin. exact (Hall _ Hin).
  - intros query output Hin. exact (Hall _ Hin).
Qed.

(** C8 amended, on a GAUL dry run: all seven set-up statements are sent, and
    nothing else. *)
Lemma dry_run_gaul_executes_setup :
  let rq := Sample.request "gaul" ["country"] None true in
  dry_run rq = true /\
  Sample.executed (w_log (snd (Sample.run Sample.ext rq)))
  = QueryText.setup_statements /\
  exists new,
    w_log (snd (Sample.run Sample.ext rq)) = (w_log Sample.world0 ++ new)%list /\
    forall sql, In (EvExecute sql) new -> In sql QueryText.setup_statements.
Proof.
  intros rq. split; [reflexivity|]. split; [reflexivity|].
  destruct (dry_run_executes_only_setup Sample.ext AdminDatasetFactory._datasets
              rq Sample.world0 eq_refl) as (new & Hlog & Hex & _).
  exists new. split; assumption.
Defined.

(** C2 fails on the code. The statements an executed join sends to the
    engine, on the Overture dataset, are the generic set-up, the row count
    and the statistics: [configure_s3] of the dataset is never invoked, its
    statement is not among them, and the endpoint stays the one of
    source.coop. *)
Lemma overture_join_skips_configure_s3 :
  let outcome := Sample.run Sample.ext
                   (Sample.request "overture" ["country"] None false) in
  fst outcome = Ok tt /\
  AdminDatasets.configure_s3_statements (OvertureAdminDataset None false)
  = ["SET s3_region='us-west-2';"] /\
  Sample.executed (w_log (snd outcome))
  = (QueryText.setup_statements
       ++ ["SELECT COUNT(*) FROM 'in.parquet'";
           QueryText.stats_query ["country"] "out.parquet";
           QueryText.count_query "country" "out.parquet"])%list /\
  ~ In "SET s3_region='us-west-2';" (Sample.executed (w_log (snd outcome))).
Proof.
  vm_compute. repeat split.
  intros H. repeat (destruct H as [H | H]; [discriminate H|]). exact H.
Qed.

(** C3 fails on the code. The join query an executed Overture join hands to
    the writer, for the level region, has no [WHERE] clause and never
    mentions [subtype], although [get_subtype_filter] yields a filter for
    that level: rows of every subtype take part in the join. *)
Lemma overture_join_ignores_subtype_filter :
  let outcome := Sample.run Sample.ext
                   (Sample.request "overture" ["region"] None false) in
  fst outcome = Ok tt /\
  AdminDatasets.get_subtype_filter (OvertureAdminDataset None false) ["region"]
  = Some "subtype IN ('region')" /\
  Sample.written (w_log (snd outcome))
  = [QueryText.build_query
       (QueryText.admin_select_clause ["region"] ["names['primary']"])
       "in.parquet"
       "'s3://overturemaps-us-west-2/release/2025-10-22.0/theme=divisions/type=division_area/*'"
       (Some "bbox") (Some "bbox") "geometry" "geometry"] /\
  forallb (fun query => negb (PyStr.contains query "subtype")
                        && negb (PyStr.contains query "WHERE"))
    (Sample.written (w_log (snd outcome))) = true.
Proof. vm_compute. repeat split. Qed.

(** ** The bbox pre-filter *)


Example join_on_without_bbox :
  JoinCondition.join_on None (Some "bbox") "geometry" "geom"
  = OnIntersects "geometry" "geom".
Proof. reflexivity. Qed.

Example join_on_with_bbox :
  JoinCondition.join_on (Some "bbox") (Some "geometry_bbox") "geometry" "geom"
  = OnBboxAndIntersects "bbox" "geometry_bbox" "geometry" "geom".
Proof. reflexivity. Qed.

Section BboxPrefilter.

Variable Geom : Type.
Variable st_intersects : Geom -> Geom -> bool.
Variable covers : Geom -> Q -> Q -> Prop.

(** Geometries that intersect have a point in common. *)
Hypothesis intersects_share_point :
  forall g h, st_intersects g h = true ->
              exists x y, covers g x y /\ covers h x y.






End BboxPrefilter.





(** Without the hypothesis the two joins differ: a row whose bbox column is
    not a bounding box of its geometry loses its match. *)
Example wrong_bbox_loses_a_match :
  let input := [Sample.feature "f" [Sample.pt 1 1] (Sample.box 5 6 5 6)] in
  run_join Sample.st_intersects
    (JoinCondition.join_on (Some "bbox") (Some "bbox") "geometry" "geometry")
    ["name"] ["name"] input Sample.admin_rows
  <> run_join Sample.st_intersects (OnIntersects "geometry" "geometry")
       ["name"] ["name"] input Sample.admin_rows.
Proof. vm_compute. discriminate. Qed.

(** * Further properties of the admin datasets *)

Lemma get_none_not_key (V : Type) (k : string) (d : Dict.t V) :
  Dict.get k d = None <-> ~ In k (Dict.keys d).
Proof.
  induction d as [|[k0 v0] d IH]; simpl.
  - tauto.
  - destruct (String.eqb_spec k k0) as [-> | Hne].
    + split; [discriminate | intros H; elim H; now left].
    + rewrite IH. split.
      * intros H [E | Hin]; [congruence | contradiction].
      * tauto.
Qed.

Lemma rmap_subscript (mapping : Dict.t string) (levels : list string) :
  (forall level, In level levels ->
     exists col, Dict.get level mapping = Some col) ->
  exists cols,
    rmap (AdminDatasets.subscript mapping) levels = Ok cols /\
    Forall2 (fun level col => Dict.get level mapping = Some col) levels cols.
Proof.
  induction levels as [|x r IH]; intros H; simpl.
  - exists []. split; [reflexivity | constructor].
  - destruct (H x (or_introl eq_refl)) as (col & Ex).
    destruct IH as (cols & Er & Hf); [intros l Hl; apply H; now right|].
    exists (col :: cols). unfold AdminDatasets.subscript at 1.
    rewrite Ex. simpl. rewrite Er. simpl. split; [reflexivity|].
    now constructor.
Qed.

(** X1. [get_partition_columns] fails exactly when [validate_levels] does,
    with the same usage error, and never with a [KeyError]; otherwise it
    returns one column per requested level, in the caller's order, each the
    image of its level under the column mapping. *)
Theorem get_partition_columns_in_order
  (self : AdminDataset) (levels : list string) :
  match AdminDatasets.get_partition_columns self levels with
  | Ok cols =>
      AdminDatasets.validate_levels self levels = Ok tt /\
      Forall2 (fun level col =>
                 Dict.get level (AdminDatasets.get_level_column_mapping self)
                 = Some col) levels cols
  | Raise e =>
      AdminDatasets.validate_levels self levels = Raise e /\
      exists msg, e = UsageError msg
  end.
Proof.
  unfold AdminDatasets.get_partition_columns.
  destruct (AdminDatasets.validate_levels self levels) as [[]|e] eqn:Ev; simpl.
  - assert (Hall : forall level, In level levels ->
              In level (AdminDatasets.get_available_levels self)).
    { apply invalid_levels_nil. unfold AdminDatasets.validate_levels in Ev.
      destruct (AdminDatasets.invalid_levels self levels);
        [reflexivity | discriminate]. }
    destruct (rmap_subscript (AdminDatasets.get_level_column_mapping self) levels)
      as (cols & Er & Hf).
    + intros level Hl. apply mapping_total, Hall, Hl.
    + rewrite Er. split; [reflexivity | exact Hf].
  - split; [reflexivity|]. unfold AdminDatasets.validate_levels in Ev.
    destruct (AdminDatasets.invalid_levels self levels); [discriminate|].
    injection Ev as <-. eexists. reflexivity.
Qed.

Example gaul_partition_columns :
  AdminDatasets.get_partition_columns (GAULAdminDataset None false)
    ["department"; "continent"; "department"]
  = Ok ["gaul2_name"; "continent"; "gaul2_name"].
Proof. reflexivity. Qed.

Lemma forall2_same_unique (A : Type) (l l' : list A) :
  Forall2 (fun x y => Some x = Some y) l l' -> l' = l.
Proof.
  induction 1 as [|x y l l' E _ IH]; [reflexivity|].
  injection E as <-. now rewrite IH.
Qed.

Lemma comprehension_get_inv (cols : list string) (k c : string) :
  Dict.get k (Dict.comprehension (fun c => c) (fun c => c) cols) = Some c ->
  c = k /\ In k cols.
Proof.
  intros E. destruct (in_dec string_dec k cols) as [Hin | Hn].
  - rewrite (comprehension_get cols k Hin) in E. injection E as <-. now split.
  - rewrite <- comprehension_keys in Hn. apply get_none_not_key in Hn.
    congruence.
Qed.

Lemma validate_levels_ok (self : AdminDataset) (levels : list string) :
  (forall level, In level levels ->
     In level (AdminDatasets.get_available_levels self)) ->
  AdminDatasets.validate_levels self levels = Ok tt.
Proof.
  intros H. apply invalid_levels_nil in H.
  unfold AdminDatasets.validate_levels. now rewrite H.
Qed.

(** X2. On a custom dataset the levels are the column names: for requested
    levels that all are partition columns, [get_partition_columns] returns
    the requested list itself. *)
Theorem custom_partition_columns_are_the_levels
  (sp : option string) (cols : list string) (g : string) (b : option string)
  (v : bool) (levels : list string) :
  (forall level, In level levels -> In level cols) ->
  AdminDatasets.get_partition_columns (CustomAdminDataset sp cols g b v) levels
  = Ok levels.
Proof.
  intros Hall.
  unfold AdminDatasets.get_partition_columns.
  rewrite validate_levels_ok by exact Hall. simpl.
  destruct (rmap_subscript
              (Dict.comprehension (fun c => c) (fun c => c) cols) levels)
    as (out & Er & Hf).
  - intros level Hl. exists level. apply comprehension_get, Hall, Hl.
  - rewrite Er. f_equal. apply forall2_same_unique.
    eapply Forall2_impl; [|exact Hf].
    intros level col E. apply comprehension_get_inv in E as [-> _].
    reflexivity.
Qed.

(** X2 on the custom dataset of the spec's scenario. *)
Lemma custom_partition_columns_region_name :
  AdminDatasets.get_partition_columns
    (CustomAdminDataset (Some "regions.parquet") ["region_name"; "zone"]
       "geom" None false)
    ["zone"; "region_name"]
  = Ok ["zone"; "region_name"].
Proof.
  apply custom_partition_columns_are_the_levels.
  simpl. intros level [<- | [<- | []]]; tauto.
Defined.

Lemma known_subtypes_filter (levels : list string) :
  flat_map (fun level =>
              match Dict.get level AdminDatasets.level_to_subtype with
              | Some s => [s]
              | None => []
              end) levels
  = filter (fun level => PyStr.mem level ["country"; "region"]) levels.
Proof.
  induction levels as [|x r IH]; [reflexivity|].
  cbn [flat_map filter]. rewrite IH.
  unfold AdminDatasets.level_to_subtype, PyStr.mem. cbn [Dict.get existsb].
  destruct (String.eqb_spec x "country") as [-> | H1]; [reflexivity|].
  destruct (String.eqb_spec x "region") as [-> | H2]; reflexivity.
Qed.

(** X3. [get_subtype_filter] does not validate: of the requested levels it
    keeps those named country or region, in the caller's order and with
    their repetitions, drops every other one silently, and quotes the kept
    names in a [subtype IN (...)] test. It yields no filter when nothing is
    kept, and never for another dataset than Overture. *)
Theorem subtype_filter_keeps_known_levels
  (self : AdminDataset) (levels : list string) :
  let kept := filter (fun level => PyStr.mem level ["country"; "region"]) levels in
  AdminDatasets.get_subtype_filter self levels
  = match self, kept with
    | OvertureAdminDataset _ _, _ :: _ =>
        Some ("subtype IN ("
                ++ PyStr.join ", " (map (fun s => "'" ++ s ++ "'") kept) ++ ")")
    | _, _ => None
    end.
Proof.
  cbv zeta. destruct self; try reflexivity.
  unfold AdminDatasets.get_subtype_filter. rewrite known_subtypes_filter.
  destruct (filter _ levels); reflexivity.
Qed.

Example subtype_filter_drops_unknown :
  AdminDatasets.get_subtype_filter (OvertureAdminDataset None false)
    ["region"; "province"; "country"; "region"]
  = Some "subtype IN ('region', 'country', 'region')".
Proof. reflexivity. Qed.

Example subtype_filter_none :
  AdminDatasets.get_subtype_filter (OvertureAdminDataset None false)
    ["province"] = None.
Proof. reflexivity. Qed.

(** X4. A non-empty [source_path] is the source of every dataset, and is the
    only way a custom dataset has one: on a custom dataset [get_source]
    returns exactly when [source_path] is a non-empty string and raises
    [NotImplementedError] otherwise, while the three built-in datasets
    always have a source. *)
Theorem get_source_outcome (self : AdminDataset) :
  (forall s, AdminDatasets.source_path self = Some s -> s <> "" ->
             AdminDatasets.get_source self = Ok s) /\
  match self with
  | CustomAdminDataset sp _ _ _ _ =>
      (forall s, AdminDatasets.get_source self = Ok s <->
                 sp = Some s /\ s <> "") /\
      (PyStr.truthy sp = false ->
       exists msg, AdminDatasets.get_source self
                   = Raise (NotImplementedError msg))
  | _ => exists s, AdminDatasets.get_source self = Ok s
  end.
Proof.
  split.
  - intros s E Hne. unfold AdminDatasets.get_source. rewrite E.
    destruct (String.eqb_spec s ""); [contradiction | reflexivity].
  - destruct self as [sp v | sp v | sp v | sp cols g b v];
      unfold AdminDatasets.get_source; simpl;
      try (destruct sp as [s|]; [destruct (s =? ""); eexists; reflexivity
                                | eexists; reflexivity]).
    split.
    + intros s. destruct sp as [s'|]; simpl.
      * destruct (String.eqb_spec s' "") as [-> | Hne].
        -- split; [discriminate|]. intros [E Hs]. injection E as <-.
           now elim Hs.
        -- split.
           ++ intros E. injection E as <-. now split.
           ++ intros [E _]. now injection E as <-.
      * split; [discriminate | intros [E _]; discriminate].
    + intros Ht. destruct sp as [s'|]; simpl in *.
      * apply negb_false_iff in Ht. rewrite Ht. eexists; reflexivity.
      * eexists; reflexivity.
Qed.

Lemma startswith_iff (s p : string) :
  PyStr.startswith s p = true <-> exists rest, s = p ++ rest.
Proof.
  unfold PyStr.startswith. split.
  - apply prefix_occurs.
  - intros (rest & ->). apply occurs_prefix.
Qed.

(** X5. [is_remote] is a test on the first characters of the resolved
    source, case-sensitive: it answers true exactly when the source starts
    with [http://], [https://] or [s3://], and raises only when the dataset
    has no source. *)
Theorem is_remote_iff_scheme (self : AdminDataset) :
  match AdminDatasets.get_source self with
  | Ok source =>
      exists remote,
        AdminDatasets.is_remote self = Ok remote /\
        (remote = true <->
         exists rest, source = "http://" ++ rest \/ source = "https://" ++ rest
                      \/ source = "s3://" ++ rest)
  | Raise e => AdminDatasets.is_remote self = Raise e
  end.
Proof.
  unfold AdminDatasets.is_remote.
  destruct (AdminDatasets.get_source self) as [source | e]; cbn [rbind];
    [|reflexivity].
  eexists. split; [reflexivity|].
  unfold PyStr.startswith_any. cbn [existsb].
  rewrite orb_false_r, !orb_true_iff, !startswith_iff.
  split.
  - intros [(r & ->) | [(r & ->) | (r & ->)]]; exists r; tauto.
  - intros (r & [-> | [-> | ->]]); eauto.
Qed.

Example upper_case_scheme_is_local :
  AdminDatasets.is_remote
    (CurrentAdminDataset (Some "HTTPS://example.org/countries.parquet") false)
  = Ok false.
Proof. reflexivity. Qed.

(** X6. [create] raises a usage error exactly for an identifier that is not
    registered, and the message names that identifier and every registered
    one; for a registered identifier the only possible failure is the type
    error of instantiating an abstract class. *)
Theorem create_unknown_lists_registered
  (cls : AdminDatasetFactory.registry) (name : string)
  (sp : option string) (v : bool) :
  (~ In name (Dict.keys cls) ->
   exists msg,
     AdminDatasetFactory.create cls name sp v = Raise (UsageError msg) /\
     PyStr.occurs_in name msg /\
     forall known, In known (Dict.keys cls) -> PyStr.occurs_in known msg) /\
  (In name (Dict.keys cls) ->
   (exists self, AdminDatasetFactory.create cls name sp v = Ok self) \/
   (exists msg, AdminDatasetFactory.create cls name sp v = Raise (TypeError msg))).
Proof.
  unfold AdminDatasetFactory.create. split.
  - intros Hn. apply get_none_not_key in Hn. rewrite Hn.
    eexists. split; [reflexivity|]. split.
    + apply occurs_in_app_l, occurs_in_head.
    + intros known Hk.
      eapply occurs_in_trans;
        [apply occurs_in_join with (sep := ", "); exact Hk|].
      unfold AdminDatasetFactory.get_available_datasets.
      do 4 apply occurs_in_app_l. apply occurs_in_refl.
  - intros Hin. destruct (Dict.get name cls) as [c|] eqn:E.
    + destruct c; [right | left | left | left | right];
        eexists; reflexivity.
    + apply get_none_not_key in E. contradiction.
Qed.

(** X6 on the initial registry. *)
Lemma create_unknown_on_initial_registry :
  ~ In "osm" (Dict.keys AdminDatasetFactory._datasets) /\
  exists msg,
    AdminDatasetFactory.create AdminDatasetFactory._datasets "osm" None false
    = Raise (UsageError msg) /\
    PyStr.occurs_in "osm" msg /\ PyStr.occurs_in "overture" msg.
Proof.
  assert (Hn : ~ In "osm" (Dict.keys AdminDatasetFactory._datasets)).
  { simpl. intros [H | [H | [H | []]]]; discriminate H. }
  split; [exact Hn|].
  destruct (proj1 (create_unknown_lists_registered
                     AdminDatasetFactory._datasets "osm" None false) Hn)
    as (msg & E & Hname & Hall).
  exists msg. split; [exact E|]. split; [exact Hname|].
  apply Hall. simpl. tauto.
Defined.

Lemma keys_set_order (V : Type) (k : string) (v : V) (d : Dict.t V) :
  Dict.keys (Dict.set k v d)
  = if Dict.has_key k d then Dict.keys d else (Dict.keys d ++ [k])%list.
Proof.
  unfold Dict.has_key. induction d as [|[k0 v0] d IH]; simpl.
  - reflexivity.
  - destruct (String.eqb_spec k k0) as [-> | Hne]; simpl.
    + reflexivity.
    + change (map fst (Dict.set k v d)) with (Dict.keys (Dict.set k v d)).
      rewrite IH. now destruct (Dict.get k d).
Qed.

(** X7. [register_dataset] with a class of the hierarchy makes that class
    the one served under the identifier, leaves every other identifier
    served as before, and keeps the order of the registry: an identifier
    already registered is overwritten in place, a new one is added last. *)
Theorem register_dataset_overwrites_in_place
  (cls : AdminDatasetFactory.registry) (name : string) (c : AdminClass) :
  let cls' := snd (AdminDatasetFactory.register_dataset cls name (cls_admin c)) in
  Dict.get name cls' = Some c /\
  (forall other, other <> name -> Dict.get other cls' = Dict.get other cls) /\
  AdminDatasetFactory.get_available_datasets cls'
  = (if Dict.has_key name cls
     then AdminDatasetFactory.get_available_datasets cls
     else AdminDatasetFactory.get_available_datasets cls ++ [name])%list.
Proof.
  simpl. split; [apply get_set_same|]. split.
  - intros other Hne. now apply get_set_other.
  - apply keys_set_order.
Qed.

Example register_overwrites_gaul :
  AdminDatasetFactory.get_available_datasets
    (snd (AdminDatasetFactory.register_dataset AdminDatasetFactory._datasets
            "gaul" (cls_admin OvertureAdminDataset_cls)))
  = ["current"; "gaul"; "overture"] /\
  AdminDatasetFactory.create
    (snd (AdminDatasetFactory.register_dataset AdminDatasetFactory._datasets
            "gaul" (cls_admin OvertureAdminDataset_cls))) "gaul" None false
  = Ok (OvertureAdminDataset None false).
Proof. split; reflexivity. Qed.

(** * Further properties of source preparation *)

(** X8. The default sources of the three built-in datasets are remote: with
    no override (absent or empty), [prepare_data_source] returns the default
    source in quotes whatever the file system holds, and leaves the files
    and the session as they are. *)
Theorem builtin_default_source_is_remote
  (FS Meta : Type) (self : AdminDataset) :
  AdminDatasetFactory.class_of self <> CustomAdminDataset_cls ->
  PyStr.truthy (AdminDatasets.source_path self) = false ->
  exists source,
    AdminDatasets.get_default_source self = Ok source /\
    AdminDatasets.is_remote self = Ok true /\
    forall (ext : Externals FS Meta) (w : World FS),
      fst (prepare_data_source ext self w) = Ok ("'" ++ source ++ "'") /\
      w_fs (snd (prepare_data_source ext self w)) = w_fs w /\
      w_con (snd (prepare_data_source ext self w)) = w_con w.
Proof.
  intros Hc Ht.
  assert (E : AdminDatasets.get_source self
              = AdminDatasets.get_default_source self).
  { unfold AdminDatasets.get_source.
    destruct (AdminDatasets.source_path self) as [s|]; [|reflexivity].
    simpl in Ht. apply negb_false_iff in Ht. now rewrite Ht. }
  destruct self as [sp v | sp v | sp v | sp cols g b v];
    try (now elim Hc);
    (eexists; split; [reflexivity|]);
    (assert (R : AdminDatasets.is_remote _ = Ok true)
      by (unfold AdminDatasets.is_remote; rewrite E; reflexivity));
    (split; [exact R|]); intros ext w;
    unfold prepare_data_source, bind, lift; rewrite E, R; simpl;
    destruct v; repeat split; reflexivity.
Qed.

(** X8 on the Overture dataset given an empty override. *)
Lemma overture_default_source_is_remote :
  AdminDatasetFactory.class_of (OvertureAdminDataset (Some "") true)
  <> CustomAdminDataset_cls /\
  exists source,
    AdminDatasets.get_default_source (OvertureAdminDataset (Some "") true)
    = Ok source /\
    fst (prepare_data_source Sample.ext (OvertureAdminDataset (Some "") true)
           Sample.world0) = Ok ("'" ++ source ++ "'").
Proof.
  assert (Hc : AdminDatasetFactory.class_of (OvertureAdminDataset (Some "") true)
               <> CustomAdminDataset_cls) by discriminate.
  split; [exact Hc|].
  destruct (@builtin_default_source_is_remote Sample.FS Sample.Meta
              (OvertureAdminDataset (Some "") true) Hc eq_refl)
    as (source & E & _ & H).
  exists source. split; [exact E|]. apply (H Sample.ext Sample.world0).
Defined.

(** X9. On a source that is not remote, [prepare_data_source] returns the
    path in quotes when the path exists; when it does not, it raises a
    [ClickException] that names the path and leaves the world untouched, in
    verbose mode too. The files and the session are never changed. *)
Theorem local_source_must_exist
  (FS Meta : Type) (ext : Externals FS Meta) (self : AdminDataset)
  (source : string) (w : World FS) :
  AdminDatasets.get_source self = Ok source ->
  AdminDatasets.is_remote self = Ok false ->
  (os_path_exists ext (w_fs w) source = true ->
   fst (prepare_data_source ext self w) = Ok ("'" ++ source ++ "'") /\
   w_fs (snd (prepare_data_source ext self w)) = w_fs w /\
   w_con (snd (prepare_data_source ext self w)) = w_con w) /\
  (os_path_exists ext (w_fs w) source = false ->
   prepare_data_source ext self w
   = (Raise (ClickException ("Data source file not found: " ++ source)), w)).
Proof.
  intros E R.
  unfold prepare_data_source, bind, lift, call_os_path_exists.
  rewrite E, R. split; intros Hx; rewrite Hx; simpl.
  - destruct (AdminDatasets.verbose self); repeat split; reflexivity.
  - reflexivity.
Qed.

(** X9 on a custom dataset whose file is missing, and on one whose file is
    there. *)
Lemma local_source_on_sample_files :
  prepare_data_source Sample.ext
    (CustomAdminDataset (Some "/data/regions.parquet") ["name"] "geometry"
       None true) Sample.world0
  = (Raise (ClickException "Data source file not found: /data/regions.parquet"),
     Sample.world0) /\
  fst (prepare_data_source Sample.ext
         (CustomAdminDataset (Some "in.parquet") ["name"] "geometry" None true)
         Sample.world0) = Ok "'in.parquet'".
Proof.
  split.
  - apply (proj2 (@local_source_must_exist Sample.FS Sample.Meta Sample.ext
                    (CustomAdminDataset (Some "/data/regions.parquet") ["name"]
                       "geometry" None true)
                    "/data/regions.parquet" Sample.world0 eq_refl eq_refl)).
    reflexivity.
  - apply (proj1 (@local_source_must_exist Sample.FS Sample.Meta Sample.ext
                    (CustomAdminDataset (Some "in.parquet") ["name"]
                       "geometry" None true)
                    "in.parquet" Sample.world0 eq_refl eq_refl)).
    reflexivity.
Defined.

(** * Further properties of the join executor *)

Lemma created_dataset_has_source
  (cls : AdminDatasetFactory.registry) (name : string) (sp : option string)
  (v : bool) (self : AdminDataset) :
  AdminDatasetFactory.create cls name sp v = Ok self ->
  exists source, AdminDatasets.get_source self = Ok source.
Proof.
  unfold AdminDatasetFactory.create.
  destruct (Dict.get name cls) as [c|]; [|discriminate].
  destruct c; simpl; intros E; try discriminate; injection E as <-;
    unfold AdminDatasets.get_source; simpl;
    (destruct sp as [s|]; [destruct (s =? "")|]); eexists; reflexivity.
Qed.

(** X10. A request for a dataset that is not registered raises the usage
    error of [create] at once: nothing is echoed, no helper is called, no
    session is opened, the world is exactly as before. *)
Theorem unknown_dataset_touches_nothing
  (FS Meta : Type) (ext : Externals FS Meta)
  (cls : AdminDatasetFactory.registry) (rq : JoinRequest) (w : World FS) :
  ~ In (dataset_name rq) (Dict.keys cls) ->
  exists msg,
    add_admin_divisions_multi ext cls rq w = (Raise (UsageError msg), w) /\
    PyStr.occurs_in (dataset_name rq) msg.
Proof.
  intros Hn. apply get_none_not_key in Hn.
  unfold add_admin_divisions_multi, bind, lift, AdminDatasetFactory.create.
  rewrite Hn. eexists. split; [reflexivity|].
  apply occurs_in_app_l, occurs_in_head.
Qed.

(** X10 on a request for a dataset named osm. *)
Lemma unknown_dataset_osm :
  ~ In (dataset_name (Sample.request "osm" ["country"] None false))
       (Dict.keys AdminDatasetFactory._datasets) /\
  exists msg,
    Sample.run Sample.ext (Sample.request "osm" ["country"] None false)
    = (Raise (UsageError msg), Sample.world0) /\
    PyStr.occurs_in "osm" msg.
Proof.
  assert (Hn : ~ In (dataset_name (Sample.request "osm" ["country"] None false))
                    (Dict.keys AdminDatasetFactory._datasets)).
  { simpl. intros [H | [H | [H | []]]]; discriminate H. }
  split; [exact Hn|].
  exact (@unknown_dataset_touches_nothing Sample.FS Sample.Meta Sample.ext
           AdminDatasetFactory._datasets
           (Sample.request "osm" ["country"] None false) Sample.world0 Hn).
Defined.

(** The message of that error. *)
Example unknown_dataset_osm_message :
  fst (Sample.run Sample.ext (Sample.request "osm" ["country"] None false))
  = Raise (UsageError
      "Unknown admin dataset: osm. Available: current, gaul, overture").
Proof. reflexivity. Qed.

(** X11. A request with a level the dataset does not have raises the usage
    error of [validate_levels] before any input or output: no helper is
    called, no session is opened, the files are untouched, and the only
    events are the three verbose echoes that come before the validation. *)
Theorem invalid_level_fails_before_io
  (FS Meta : Type) (ext : Externals FS Meta)
  (cls : AdminDatasetFactory.registry) (rq : JoinRequest) (w : World FS)
  (dataset : AdminDataset) (e : exn) :
  AdminDatasetFactory.create cls (dataset_name rq) (dataset_source rq) (verbose rq)
  = Ok dataset ->
  AdminDatasets.validate_levels dataset (levels rq) = Raise e ->
  fst (add_admin_divisions_multi ext cls rq w) = Raise e /\
  w_fs (snd (add_admin_divisions_multi ext cls rq w)) = w_fs w /\
  w_con (snd (add_admin_divisions_multi ext cls rq w)) = w_con w /\
  exists new,
    w_log (snd (add_admin_divisions_multi ext cls rq w))
    = (w_log w ++ new)%list /\
    Forall is_echo new /\
    length new = (if verbose rq then 3 else 0).
Proof.
  intros Ec Ev.
  destruct (created_dataset_has_source _ _ _ _ Ec) as (source & Es).
  unfold add_admin_divisions_multi, bind, lift, when, click_echo, log, ret.
  rewrite Ec. destruct (verbose rq); simpl; rewrite ?Es, Ev; simpl.
  - repeat split. eexists. split.
    + rewrite <- !app_assoc. reflexivity.
    + split; [repeat constructor | reflexivity].
  - repeat split. exists []. rewrite app_nil_r.
    split; [reflexivity|]. split; [constructor | reflexivity].
Qed.

(** X11 on the level province, asked of the Overture dataset. *)
Lemma invalid_level_province :
  fst (Sample.run Sample.ext (Sample.request "overture" ["province"] None false))
  = Raise (UsageError
      "Invalid levels for Overture Maps Divisions: province. Available levels: country, region") /\
  snd (Sample.run Sample.ext (Sample.request "overture" ["province"] None false))
  = Sample.world0.
Proof.
  destruct (@invalid_level_fails_before_io Sample.FS Sample.Meta Sample.ext
              AdminDatasetFactory._datasets
              (Sample.request "overture" ["province"] None false) Sample.world0
              (OvertureAdminDataset None false) _ eq_refl eq_refl)
    as (E & _).
  split; [exact E | reflexivity].
Defined.

(** X12. The special case of [UNCOMPRESSED] in the dry-run display is
    redundant: the compression shown in the [COPY] text is the lower-case
    form of the requested compression, whatever it is. *)
Theorem duckdb_compression_is_lower (compression : string) :
  QueryText.duckdb_compression compression = PyStr.lower compression.
Proof.
  unfold QueryText.duckdb_compression.
  destruct (String.eqb_spec compression "UNCOMPRESSED") as [-> | _];
    reflexivity.
Qed.

(** ** The events of a join request *)

Section LogRules.

Variables FS Meta : Type.
Variable ext : Externals FS Meta.
Variable ok : Event -> Prop.
Variable C : ConState -> Prop.
Variable w0 : World FS.

Local Open Scope py_scope.

Lemma evolves_refl : C (w_con w0) -> evolves ok C w0 w0.
Proof.
  intros HC. split; [|exact HC]. exists []. split; [|constructor].
  now rewrite app_nil_r.
Qed.

Lemma evolves_step (w : World FS) (e : Event) (fs : FS) (c : ConState) :
  ok e -> C c -> evolves ok C w0 w ->
  evolves ok C w0
    {| w_fs := fs; w_con := c; w_log := (w_log w ++ [e])%list |}.
Proof.
  intros He HC ((new & Hlog & Hall) & _). split; [|exact HC].
  exists (new ++ [e])%list. simpl. split.
  - now rewrite Hlog, app_assoc.
  - apply Forall_app. split; [assumption | now constructor].
Qed.

Lemma logs_log (e : Event) : ok e -> keeps (evolves ok C w0) (log e).
Proof. intros He w H. apply evolves_step; [exact He | apply H | exact H]. Qed.

Lemma logs_click_echo (s : string) :
  ok (EvEcho {| text := s; fg := None; bold := false |}) ->
  keeps (evolves ok C w0) (click_echo s).
Proof. apply logs_log. Qed.

Lemma logs_click_echo_style (s colour : string) (b : bool) :
  ok (EvEcho {| text := s; fg := Some colour; bold := b |}) ->
  keeps (evolves ok C w0) (click_echo_style s colour b).
Proof. apply logs_log. Qed.

Lemma logs_duckdb_connect :
  ok EvConnect -> C (SessionOpen []) ->
  keeps (evolves ok C w0) (duckdb_connect (FS := FS)).
Proof. intros He HC w H. now apply evolves_step. Qed.

Lemma logs_con_execute (sql : string) :
  ok (EvExecute sql) ->
  (forall history, C (SessionOpen history) ->
                   C (SessionOpen (history ++ [sql])%list)) ->
  keeps (evolves ok C w0) (con_execute ext sql).
Proof.
  intros He HC w H. unfold con_execute.
  destruct (w_con w) as [|history|history] eqn:E; simpl;
    try (apply evolves_step; [exact He | rewrite <- E; apply H | exact H]).
  destruct (engine_execute ext (w_fs w) history sql); simpl.
  - apply evolves_step; [exact He | | exact H].
    apply HC. rewrite <- E. apply H.
  - apply evolves_step; [exact He | rewrite <- E; apply H | exact H].
Qed.

Lemma logs_con_close :
  ok EvClose ->
  (forall history, C (SessionOpen history) -> C (SessionClosed history)) ->
  keeps (evolves ok C w0) (con_close (FS := FS)).
Proof.
  intros He HC w H. unfold con_close. simpl.
  apply evolves_step; [exact He | | exact H].
  destruct (w_con w) eqn:E; try (rewrite <- E; apply H).
  apply HC. rewrite <- E. apply H.
Qed.

Lemma logs_get_parquet_metadata (path : string) (v : bool) :
  ok (EvGetMetadata path) ->
  keeps (evolves ok C w0) (call_get_parquet_metadata ext path v).
Proof. intros He w H. apply evolves_step; [exact He | apply H | exact H]. Qed.

Lemma logs_add_bbox (path column : string) (v : bool) :
  ok (EvAddBbox path column) ->
  keeps (evolves ok C w0) (call_add_bbox ext path column v).
Proof.
  intros He w H. unfold call_add_bbox.
  destruct (add_bbox ext (w_fs w) path column v). simpl.
  apply evolves_step; [exact He | apply H | exact H].
Qed.

Lemma logs_write (query output : string) (md : option Meta)
  (opts : WriteOptions) :
  ok (EvWrite query output) ->
  keeps (evolves ok C w0)
    (call_write_parquet_with_metadata ext query output md opts).
Proof.
  intros He w H. unfold call_write_parquet_with_metadata.
  destruct (write_parquet_with_metadata ext _ _ _ _ _ _). simpl.
  apply evolves_step; [exact He | apply H | exact H].
Qed.

Lemma keeps_row_item (I : World FS -> Prop) (row : list Z) (i : nat) :
  keeps I (row_item (FS := FS) row i).
Proof.
  unfold row_item. destruct (nth_error row i);
    [apply keeps_ret | apply keeps_raise].
Qed.

Lemma keeps_mapM_in (A B : Type) (I : World FS -> Prop) (f : A -> M FS B)
  (l : list A) :
  (forall x, In x l -> keeps I (f x)) -> keeps I (mapM f l).
Proof.
  induction l as [|x r IH]; intros Hf; simpl.
  - apply keeps_ret.
  - apply keeps_bind; [apply Hf; now left|]. intros y.
    apply keeps_bind; [|intros ys; apply keeps_ret].
    apply IH. intros z Hz. apply Hf. now right.
Qed.

Lemma logs_prepare_data_source (self : AdminDataset) :
  (forall o, ok (EvEcho o)) ->
  keeps (evolves ok C w0) (prepare_data_source ext self).
Proof.
  intros He. unfold prepare_data_source.
  apply keeps_bind; [apply keeps_lift|]. intros source.
  apply keeps_bind; [apply keeps_lift|]. intros [|].
  - apply keeps_bind; [|intros; apply keeps_ret].
    apply keeps_when, logs_click_echo, He.
  - apply keeps_bind; [apply keeps_os_path_exists|]. intros found.
    destruct (negb found); [apply keeps_raise|].
    apply keeps_bind; [|intros; apply keeps_ret].
    apply keeps_when, logs_click_echo, He.
Qed.

(** Computations that cannot raise, and what a raising computation keeps. *)

Lemma never_ret (A : Type) (a : A) : never_raises (ret (FS := FS) a).
Proof. intros w. now exists a. Qed.

Lemma never_log (e : Event) : never_raises (log (FS := FS) e).
Proof. intros w. now exists tt. Qed.

Lemma never_con_close : never_raises (con_close (FS := FS)).
Proof. intros w. now exists tt. Qed.

Lemma never_bind (A B : Type) (m : M FS A) (k : A -> M FS B) :
  never_raises m -> (forall a, never_raises (k a)) -> never_raises (bind m k).
Proof.
  intros Hm Hk w. unfold bind. destruct (Hm w) as (a & E).
  destruct (m w) as [r w1]. simpl in E. subst r. apply Hk.
Qed.

Lemma never_when (b : bool) (m : M FS unit) :
  never_raises m -> never_raises (when b m).
Proof. destruct b; simpl; [trivial | intros _; apply never_ret]. Qed.

Lemma never_mapM (A B : Type) (f : A -> M FS B) (l : list A) :
  (forall x, never_raises (f x)) -> never_raises (mapM f l).
Proof.
  intros Hf. induction l as [|x r IH]; simpl.
  - apply never_ret.
  - apply never_bind; [apply Hf|]. intros y.
    apply never_bind; [apply IH|]. intros ys. apply never_ret.
Qed.

Lemma on_error_bind (A B : Type) (I : World FS -> Prop) (m : M FS A)
  (k : A -> M FS B) :
  keeps I m -> (forall a, keeps_on_error I (k a)) ->
  keeps_on_error I (bind m k).
Proof.
  intros Hm Hk w H. unfold bind. specialize (Hm w H).
  destruct (m w) as [[a | e] w1]; simpl in Hm.
  - apply Hk, Hm.
  - exact Hm.
Qed.

Lemma on_error_never (A : Type) (I : World FS -> Prop) (m : M FS A) :
  never_raises m -> keeps_on_error I m.
Proof.
  intros Hm w _. destruct (Hm w) as (a & E).
  destruct (m w) as [r w1]. simpl in E. now subst r.
Qed.

End LogRules.

Ltac event_ok :=
  idtac;
  match goal with
  | |- join_event _ (EvEcho _) => exact I
  | |- join_event _ EvConnect => exact I
  | |- join_event _ EvClose => exact I
  | |- join_event _ (EvExecute (String _ _)) => left; simpl; tauto
  | |- join_event _ (EvExecute (QueryText.stats_query _ _)) =>
      right; split; [assumption|]; right; left; reflexivity
  | |- join_event _ (EvExecute (QueryText.count_query _ _)) =>
      right; split; [assumption|]; right; right; eexists;
      split; [eassumption | reflexivity]
  | |- join_event _ (EvExecute _) =>
      right; split; [assumption|]; left; eexists; reflexivity
  | |- join_event _ (EvGetMetadata _) => split; [reflexivity | assumption]
  | |- join_event _ (EvAddBbox _ _) => repeat split; assumption
  | |- join_event _ (EvWrite _ _) =>
      split; [reflexivity|]; split; [assumption|]; repeat eexists
  end.

(** One step through a computation; [ev] proves that an event is allowed
    and [ses] that a session is. *)
Ltac logs_step ev ses :=
  match goal with
  | |- keeps ?J (when false _) => exact (keeps_ret J tt)
  | |- keeps _ (bind _ _) => apply keeps_bind
  | |- keeps _ (ret _) => apply keeps_ret
  | |- keeps _ (lift _) => apply keeps_lift
  | |- keeps _ (when _ _) => apply keeps_when
  | |- keeps _ (if ?b then _ else _) => destruct b
  | |- keeps _ (mapM _ _) => apply keeps_mapM_in
  | |- keeps _ (row_item _ _) => apply keeps_row_item
  | |- keeps _ (call_safe_file_url _ _ _) => apply keeps_safe_file_url
  | |- keeps _ (call_find_primary_geometry_column _ _ _) =>
      apply keeps_find_primary_geometry_column
  | |- keeps _ (call_check_bbox_structure _ _ _) =>
      apply keeps_check_bbox_structure
  | |- keeps _ (prepare_data_source _ _) =>
      apply logs_prepare_data_source; intros; ev
  | |- keeps _ (click_echo _) => apply logs_click_echo; ev
  | |- keeps _ (click_echo_style _ _ _) => apply logs_click_echo_style; ev
  | |- keeps _ (duckdb_connect (FS := _)) =>
      apply logs_duckdb_connect; [ev | ses]
  | |- keeps _ (con_close (FS := _)) =>
      apply logs_con_close; [ev | intros; ses]
  | |- keeps _ (con_execute _ _) =>
      apply logs_con_execute; [ev | intros; ses]
  | |- keeps _ (call_get_parquet_metadata _ _ _) =>
      apply logs_get_parquet_metadata; ev
  | |- keeps _ (call_add_bbox _ _ _ _) => apply logs_add_bbox; ev
  | |- keeps _ (call_write_parquet_with_metadata _ _ _ _ _) =>
      apply logs_write; ev
  end.

Section JoinEvents.

Variables FS Meta : Type.
Variable ext : Externals FS Meta.

(** Whatever its outcome, every event a join request adds to the log is one
    of [join_event]. *)
Lemma join_events (cls : AdminDatasetFactory.registry) (rq : JoinRequest)
  (w0 : World FS) :
  keeps (evolves (join_event rq) (fun _ => True) w0)
    (add_admin_divisions_multi ext cls rq).
Proof.
  unfold add_admin_divisions_multi, fetch_metadata_and_check_bbox.
  destruct (dry_run rq) eqn:Hdry; destruct (add_bbox_flag rq) eqn:Hflag;
    cbn [negb andb]; rewrite ?andb_false_r, ?andb_true_r;
    repeat (intros; cbv zeta; logs_step ltac:(event_ok) ltac:(exact I)).
Qed.

Ltac never_step :=
  first
    [ apply never_ret
    | apply never_log
    | apply never_con_close
    | apply never_when
    | apply never_mapM
    | apply never_bind ].

Ltac on_error_step :=
  first
    [ match goal with
      | |- keeps_on_error _ (bind (con_close (FS := _)) _) =>
          apply on_error_never; repeat (intros; never_step)
      end
    | match goal with
      | |- keeps_on_error _ (if ?b then _ else _) => destruct b
      end
    | apply on_error_bind;
      [ repeat (intros; cbv zeta;
                logs_step ltac:(discriminate) ltac:(right; now eexists))
      | intros ] ].

(** When a join request raises, it has not closed a session: no close event
    was logged, and the session is the one it found or one it opened. *)
Lemma raises_without_close (cls : AdminDatasetFactory.registry)
  (rq : JoinRequest) (w0 : World FS) :
  keeps_on_error
    (evolves not_close
       (fun c => c = w_con w0 \/ exists history, c = SessionOpen history) w0)
    (add_admin_divisions_multi ext cls rq).
Proof.
  unfold add_admin_divisions_multi, fetch_metadata_and_check_bbox. cbv zeta.
  repeat (intros; on_error_step).
Qed.

End JoinEvents.

(** X13. Whatever its outcome, the only helper calls of a join request that
    can change a file are [add_bbox] on the input file with column [bbox],
    made only outside dry-run mode and only when [add_bbox_flag] is set, and
    [write_parquet_with_metadata] to the output path, made only outside
    dry-run mode; the metadata is fetched from the input file only. *)
Theorem join_changes_only_input_bbox_and_output
  (FS Meta : Type) (ext : Externals FS Meta)
  (cls : AdminDatasetFactory.registry) (rq : JoinRequest) (w : World FS) :
  exists new,
    w_log (snd (add_admin_divisions_multi ext cls rq w))
    = (w_log w ++ new)%list /\
    (forall path column, In (EvAddBbox path column) new ->
       path = input_parquet rq /\ column = "bbox" /\
       add_bbox_flag rq = true /\ dry_run rq = false) /\
    (forall query output, In (EvWrite query output) new ->
       output = output_parquet rq /\ dry_run rq = false) /\
    (forall path, In (EvGetMetadata path) new ->
       path = input_parquet rq /\ dry_run rq = false).
Proof.
  destruct (@join_events _ _ ext cls rq w w
              (@evolves_refl _ _ (fun _ => True) w I))
    as ((new & Hlog & Hall) & _).
  exists new. split; [exact Hlog|].
  rewrite Forall_forall in Hall.
  repeat split; intros; match goal with
    | H : In _ new |- _ => apply Hall in H; simpl in H; tauto
    end.
Qed.


(** X15. A join request that raises, at whatever point, has closed no
    session: no close event was added to the log, and the session is either
    the one found at the start or one the request opened and left open. *)
Theorem failed_join_closes_nothing
  (FS Meta : Type) (ext : Externals FS Meta)
  (cls : AdminDatasetFactory.registry) (rq : JoinRequest) (w : World FS)
  (e : exn) :
  fst (add_admin_divisions_multi ext cls rq w) = Raise e ->
  (exists new,
     w_log (snd (add_admin_divisions_multi ext cls rq w))
     = (w_log w ++ new)%list /\
     ~ In EvClose new) /\
  (w_con (snd (add_admin_divisions_multi ext cls rq w)) = w_con w \/
   session_open (snd (add_admin_divisions_multi ext cls rq w))).
Proof.
  intros E.
  pose proof (@raises_without_close _ _ ext cls rq w w
                (@evolves_refl _ _ _ w (or_introl eq_refl))) as H.
  destruct (add_admin_divisions_multi ext cls rq w) as [[a | e'] w'];
    [discriminate E|].
  destruct H as ((new & Hlog & Hall) & HC). simpl. split.
  - exists new. split; [exact Hlog|].
    rewrite Forall_forall in Hall. intros Hin. now apply (Hall _ Hin).
  - exact HC.
Qed.

(** X15 on a machine where the engine cannot fetch its extensions. *)
Lemma failed_join_closes_nothing_offline :
  fst (Sample.run Sample.ext_offline
         (Sample.request "gaul" ["country"] None false))
  = Raise (EngineError "IO Error: Failed to download extension") /\
  session_open
    (snd (Sample.run Sample.ext_offline
            (Sample.request "gaul" ["country"] None false))).
Proof.
  split; [reflexivity|].
  destruct (@failed_join_closes_nothing Sample.FS Sample.Meta
              Sample.ext_offline AdminDatasetFactory._datasets
              (Sample.request "gaul" ["country"] None false) Sample.world0
              _ eq_refl) as (_ & [H | H]).
  - discriminate H.
  - exact H.
Defined.

(** ** The statements of a join request that returns *)

Section History.

Variables FS Meta : Type.
Variable ext : Externals FS Meta.

Local Open Scope py_scope.




Lemma okp_execute_history (h : list string) (sql : string) :
  okp (history_is h) (con_execute ext sql)
    (fun _ => history_is (FS := FS) (h ++ [sql])%list).
Proof.
  intros w a w' H E. unfold con_execute in E.
  unfold history_is in H. rewrite H in E.
  destruct (engine_execute ext (w_fs w) h sql); inversion E; subst.
  reflexivity.
Qed.


Lemma okp_mapM_history (A B : Type) (f : A -> M FS B) (q : A -> string)
  (l : list A) :
  (forall h x, okp (history_is h) (f x)
                 (fun _ => history_is (FS := FS) (h ++ [q x])%list)) ->
  forall h, okp (history_is h) (mapM f l)
              (fun _ => history_is (FS := FS) (h ++ map q l)%list).
Proof.
  intros Hf. induction l as [|x r IH]; intros h; simpl.
  - rewrite app_nil_r. apply okp_ret.
  - eapply okp_bind; [apply Hf|]. intros y.
    eapply okp_bind; [apply IH|]. intros ys.
    rewrite <- app_assoc. apply okp_ret.
Qed.








End History.




(** * Properties of [add_h3] *)

Section AddH3Runs.

#[local] Arguments AddH3.query : simpl never.
#[local] Arguments AddH3.count_query : simpl never.
#[local] Arguments PyStr.format_comma : simpl never.
#[local] Arguments PyStr.of_Z : simpl never.
#[local] Arguments String.append : simpl never.

(** Runs [add_h3] symbolically: one case per outcome of each call. *)
Ltac run_add_h3 :=
  unfold AddH3.add_h3, AddH3.bind, AddH3.when, AddH3.click_echo,
    AddH3.duckdb_connect, AddH3.con_execute, AddH3.call_safe_file_url,
    AddH3.call_get_parquet_metadata, AddH3.call_find_primary_geometry_column,
    AddH3.call_update_metadata, AddH3.row_item, AddH3.ret, AddH3.raise;
  repeat (simpl in *;
          match goal with
          | |- context [match ?x with _ => _ end] =>
              lazymatch x with
              | context [match _ with _ => _ end] => fail
              | _ => destruct x eqn:?
              end
          end);
  simpl in *.

(** X17. [add_h3] never closes the session it opens: whatever the outcome,
    the session is the one found at the start or an open one; and when
    [add_h3] returns, the session is still open, having run the four
    extension statements, the [COPY] statement built from the URL and the
    geometry column the helpers gave for the input and, in verbose mode, the
    row count of the output, in this order. *)
Theorem add_h3_leaves_session_open
  (FS Meta : Type) (ext : AddH3.Externals FS Meta)
  (input_parquet output_parquet : string) (resolution : Z)
  (column_name : string) (verbose : bool) (st : AddH3.State FS) :
  (AddH3.con (snd (AddH3.add_h3 ext input_parquet output_parquet resolution
                     column_name verbose st)) = AddH3.con st \/
   exists history,
     AddH3.con (snd (AddH3.add_h3 ext input_parquet output_parquet resolution
                       column_name verbose st)) = SessionOpen history) /\
  (fst (AddH3.add_h3 ext input_parquet output_parquet resolution column_name
          verbose st) = Ok tt ->
   exists input_url geometry_column,
     AddH3.safe_file_url ext (AddH3.fs st) input_parquet verbose
     = Ok input_url /\
     AddH3.find_primary_geometry_column ext (AddH3.fs st) input_parquet verbose
     = Ok geometry_column /\
     AddH3.con (snd (AddH3.add_h3 ext input_parquet output_parquet resolution
                       column_name verbose st))
     = SessionOpen
         (AddH3.load_statements
          ++ [AddH3.query geometry_column resolution column_name input_url
                output_parquet]
          ++ (if verbose then [AddH3.count_query output_parquet] else []))%list).
Proof.
  run_add_h3;
    (split; [first [now left | right; now eexists]
            | first [discriminate | intros _; do 2 eexists; repeat split]]).
Qed.

(** X18. Whatever the outcome, [add_h3] calls [update_metadata] on the
    output file only, and only when the metadata fetched from the input is
    truthy; when [add_h3] returns and that metadata is truthy, the call was
    made. *)
Theorem add_h3_updates_metadata_of_output_only
  (FS Meta : Type) (ext : AddH3.Externals FS Meta)
  (input_parquet output_parquet : string) (resolution : Z)
  (column_name : string) (verbose : bool) (st : AddH3.State FS) :
  exists new,
    AddH3.log (snd (AddH3.add_h3 ext input_parquet output_parquet resolution
                      column_name verbose st))
    = (AddH3.log st ++ new)%list /\
    (forall path, In (AddH3.UpdateMetadata path) new ->
       path = output_parquet /\
       exists metadata,
         AddH3.get_parquet_metadata ext (AddH3.fs st) input_parquet verbose
         = Ok metadata /\
         AddH3.truth ext metadata = true) /\
    (fst (AddH3.add_h3 ext input_parquet output_parquet resolution column_name
            verbose st) = Ok tt ->
     forall metadata,
       AddH3.get_parquet_metadata ext (AddH3.fs st) input_parquet verbose
       = Ok metadata ->
       AddH3.truth ext metadata = true ->
       In (AddH3.UpdateMetadata output_parquet) new).
Proof.
  run_add_h3;
    (first [ exists []; split; [symmetry; apply app_nil_r|]
           | eexists; split; [rewrite <- ?app_assoc; reflexivity|] ]);
    (split;
     [ intros path Hin; simpl in Hin;
       repeat match goal with
         | H : _ \/ _ |- _ => destruct H
         | H : False |- _ => destruct H
         end;
       try discriminate;
       match goal with
       | H : AddH3.UpdateMetadata _ = AddH3.UpdateMetadata _ |- _ =>
           injection H as <-; split; [reflexivity | eauto]
       end
     | first [ discriminate
             | intros _ metadata Hmd Ht; first [congruence | simpl; tauto] ] ]).
Qed.

End AddH3Runs.

(** X17 on a run over the sample files, in verbose mode. *)
Lemma add_h3_leaves_session_open_sample :
  fst (AddH3.add_h3 AddH3.sample_ext "in.parquet" "out.parquet" 15 "h3-cell"
         true AddH3.sample_state) = Ok tt /\
  AddH3.con (snd (AddH3.add_h3 AddH3.sample_ext "in.parquet" "out.parquet" 15
                    "h3-cell" true AddH3.sample_state))
  = SessionOpen
      (AddH3.load_statements
       ++ [AddH3.query "geometry" 15 "h3-cell" "in.parquet" "out.parquet";
           "SELECT COUNT(*) FROM 'out.parquet'"])%list.
Proof.
  split; [reflexivity|].
  destruct (proj2 (@add_h3_leaves_session_open _ _ AddH3.sample_ext
                     "in.parquet" "out.parquet" 15%Z "h3-cell" true
                     AddH3.sample_state) eq_refl)
    as (input_url & geometry_column & Hurl & Hgeom & H).
  injection Hurl as <-. injection Hgeom as <-. exact H.
Defined.

(** The statements and the echoes of that run. *)
Example add_h3_sample_log :
  AddH3.log (snd (AddH3.add_h3 AddH3.sample_ext "in.parquet" "out.parquet" 15
                    "h3-cell" false AddH3.sample_state))
  = [AddH3.Connect;
     AddH3.Execute "INSTALL spatial;";
     AddH3.Execute "LOAD spatial;";
     AddH3.Execute "INSTALL h3 FROM community;";
     AddH3.Execute "LOAD h3;";
     AddH3.Execute
       (AddH3.query "geometry" 15 "h3-cell" "in.parquet" "out.parquet");
     AddH3.UpdateMetadata "out.parquet";
     AddH3.Echo "Successfully wrote output to: out.parquet"].
Proof. reflexivity. Qed.

(** * The query an executed join writes *)

Section WrittenQuery.

Variables FS Meta : Type.
Variable ext : Externals FS Meta.

Local Open Scope py_scope.

Lemma okp_keeps (A : Type) (I : World FS -> Prop) (m : M FS A) :
  keeps I m -> okp I m (fun _ => I).
Proof.
  intros H w a w' Hw E. specialize (H w Hw). now rewrite E in H.
Qed.

Lemma okp_conj (A : Type) (P : World FS -> Prop) (m : M FS A)
  (Q1 Q2 : A -> World FS -> Prop) :
  okp P m Q1 -> okp P m Q2 -> okp P m (fun a w => Q1 a w /\ Q2 a w).
Proof. intros H1 H2 w a w' Hw E. split; eauto. Qed.

Lemma okp_assume_and (A : Type) (F : Prop) (P : World FS -> Prop)
  (m : M FS A) (Q : A -> World FS -> Prop) :
  (F -> okp P m Q) -> okp (fun w => F /\ P w) m Q.
Proof. intros H w a w' (HF & HP) E. exact (H HF w a w' HP E). Qed.

Lemma extends_evolves (ok : Event -> Prop) (w0 w : World FS) :
  extends_with ok w0 w -> evolves ok (fun _ => True) w0 w.
Proof. intros (_ & H). now split. Qed.

Lemma okp_safe_file_url_extends (ok : Event -> Prop) (w0 : World FS)
  (path : string) (v : bool) :
  okp (extends_with ok w0) (call_safe_file_url ext path v)
    (fun url w => safe_file_url ext (w_fs w0) path v = Ok url /\
                  evolves ok (fun _ => True) w0 w).
Proof.
  intros w a w' H E. unfold call_safe_file_url in E. inversion E; subst.
  split; [|now apply extends_evolves]. destruct H as (Hfs & _).
  now rewrite <- Hfs.
Qed.

Lemma okp_prepare_result (P : World FS -> Prop) (self : AdminDataset) :
  okp P (prepare_data_source ext self)
    (fun ref _ => exists source,
       AdminDatasets.get_source self = Ok source /\
       ref = "'" ++ source ++ "'").
Proof.
  intros w ref w' _. unfold prepare_data_source, bind, lift, when, click_echo,
    call_os_path_exists, log, ret, raise.
  destruct (AdminDatasets.get_source self) as [source | e]; [|discriminate].
  destruct (AdminDatasets.is_remote self) as [[|] | e]; [| |discriminate].
  - destruct (AdminDatasets.verbose self); intros E; inversion E; eauto.
  - destruct (os_path_exists ext (w_fs w) source); simpl; [|discriminate].
    destruct (AdminDatasets.verbose self); intros E; inversion E; eauto.
Qed.

Lemma okp_write_gained (w0 : World FS) (query output : string)
  (md : option Meta) (opts : WriteOptions) :
  okp (evolves (fun _ => True) (fun _ => True) w0)
    (call_write_parquet_with_metadata ext query output md opts)
    (fun _ => gained (EvWrite query output) w0).
Proof.
  intros w a w' ((new & Hlog & _) & _) E.
  unfold call_write_parquet_with_metadata in E.
  destruct (write_parquet_with_metadata ext _ _ _ _ _ _).
  inversion E; subst. exists (new ++ [EvWrite query output])%list. simpl.
  split; [now rewrite Hlog, app_assoc|].
  apply in_or_app. right. now left.
Qed.

Lemma okp_gained_keeps (A : Type) (e : Event) (w0 : World FS) (m : M FS A) :
  (forall w1, keeps (evolves (fun _ => True) (fun _ => True) w1) m) ->
  okp (gained e w0) m (fun _ => gained e w0).
Proof.
  intros H w a w' (new & Hlog & Hin) E.
  destruct (H w w) as ((new' & Hlog' & _) & _).
  { apply evolves_refl. exact I. }
  rewrite E in Hlog'. simpl in Hlog'.
  exists (new ++ new')%list. split.
  - now rewrite Hlog', Hlog, app_assoc.
  - apply in_or_app. now left.
Qed.

Ltac find_in_text :=
  first [ apply occurs_in_head
        | apply occurs_in_refl
        | apply occurs_in_app_l; find_in_text ].

(** What both query templates hold. *)
Lemma build_query_shows
  (sc url ref : string) (ibc abc : option string) (agc igc : string) :
  PyStr.occurs_in sc (QueryText.build_query sc url ref ibc abc agc igc) /\
  PyStr.occurs_in ("FROM '" ++ url ++ "' a")
    (QueryText.build_query sc url ref ibc abc agc igc) /\
  PyStr.occurs_in ("LEFT JOIN " ++ ref ++ " b")
    (QueryText.build_query sc url ref ibc abc agc igc) /\
  PyStr.occurs_in "ST_Intersects("
    (QueryText.build_query sc url ref ibc abc agc igc).
Proof.
  unfold QueryText.build_query.
  destruct (QueryText.use_bbox ibc abc);
    unfold QueryText.query_with_bbox, QueryText.query_exact_only;
    (split; [find_in_text|]); (split; [|split]).
  - change ("    FROM '") with ("    " ++ "FROM '").
    repeat rewrite append_assoc.
    repeat match goal with
      | |- PyStr.occurs_in _ (("FROM '" ++ _)) => fail 1
      | |- _ => apply occurs_in_app_l
      end.
    rewrite <- (append_assoc url "' a").
    rewrite <- (append_assoc "FROM '" (url ++ "' a")).
    apply occurs_in_head.
  - change ("    LEFT JOIN ") with ("    " ++ "LEFT JOIN ").
    repeat rewrite append_assoc.
    repeat match goal with
      | |- PyStr.occurs_in _ (("LEFT JOIN " ++ _)) => fail 1
      | |- _ => apply occurs_in_app_l
      end.
    rewrite <- (append_assoc ref " b").
    rewrite <- (append_assoc "LEFT JOIN " (ref ++ " b")).
    apply occurs_in_head.
  - change ("        AND ST_Intersects(  -- More expensive precise check only on bbox matches")
      with ("        AND " ++ "ST_Intersects(" ++ "  -- More expensive precise check only on bbox matches").
    repeat rewrite append_assoc. find_in_text.
  - change ("    FROM '") with ("    " ++ "FROM '").
    repeat rewrite append_assoc.
    repeat match goal with
      | |- PyStr.occurs_in _ (("FROM '" ++ _)) => fail 1
      | |- _ => apply occurs_in_app_l
      end.
    rewrite <- (append_assoc url "' a").
    rewrite <- (append_assoc "FROM '" (url ++ "' a")).
    apply occurs_in_head.
  - change ("    LEFT JOIN ") with ("    " ++ "LEFT JOIN ").
    repeat rewrite append_assoc.
    repeat match goal with
      | |- PyStr.occurs_in _ (("LEFT JOIN " ++ _)) => fail 1
      | |- _ => apply occurs_in_app_l
      end.
    rewrite <- (append_assoc ref " b").
    rewrite <- (append_assoc "LEFT JOIN " (ref ++ " b")).
    apply occurs_in_head.
  - change ("    ON ST_Intersects(b.") with ("    ON " ++ "ST_Intersects(" ++ "b.").
    repeat rewrite append_assoc. find_in_text.
Qed.

Lemma writes_join_query (cls : AdminDatasetFactory.registry)
  (rq : JoinRequest) (w0 : World FS) :
  dry_run rq = false ->
  okp (extends_with (fun _ => True) w0) (add_admin_divisions_multi ext cls rq)
    (fun _ w =>
       exists dataset source input_url query,
         AdminDatasetFactory.create cls (dataset_name rq) (dataset_source rq)
           (verbose rq) = Ok dataset /\
         AdminDatasets.get_source dataset = Ok source /\
         safe_file_url ext (w_fs w0) (input_parquet rq) (verbose rq)
         = Ok input_url /\
         gained (EvWrite query (output_parquet rq)) w0 w /\
         join_query_of rq input_url source query).
Proof.
  intros Hdry.
  unfold add_admin_divisions_multi, fetch_metadata_and_check_bbox.
  rewrite Hdry.
  cbn [negb andb]. rewrite ?andb_true_r. cbv zeta.
  apply okp_bind_lift. intros dataset Hcreate.
  eapply okp_bind.
  { apply okp_keeps, keeps_when.
    repeat first [ apply keeps_click_echo; exact I
                 | apply keeps_lift
                 | apply keeps_bind; [|intros ?] ]. }
  intros ?. apply okp_bind_lift. intros ? _.
  apply okp_bind_lift. intros partition_columns Hcols.
  eapply okp_bind; [apply okp_safe_file_url_extends|]. intros input_url.
  cbv beta.
  apply (okp_assume_and (P := evolves (fun _ => True) (fun _ => True) w0)).
  intros Hurl.
  apply okp_bind_lift. intros admin_source Hsource.
  repeat match goal with
    | |- okp _ (bind (prepare_data_source _ _) _) _ => fail 1
    | |- okp _ (bind _ _) _ =>
        eapply okp_bind;
        [ apply okp_keeps;
          repeat (intros; cbv zeta; logs_step ltac:(exact I) ltac:(exact I))
        | intros ?; cbv beta ]
    end.
  eapply okp_bind.
  { apply okp_conj; [apply okp_prepare_result|].
    apply okp_keeps. apply logs_prepare_data_source. intros; exact I. }
  intros admin_table_ref. cbv beta.
  apply okp_weaken with
    (P' := fun w => (exists source,
                       AdminDatasets.get_source dataset = Ok source /\
                       admin_table_ref = "'" ++ source ++ "'") /\
                    evolves (fun _ => True) (fun _ => True) w0 w)
    (Q' := fun (_ : unit) w =>
             exists dataset source input_url query,
               AdminDatasetFactory.create cls (dataset_name rq)
                 (dataset_source rq) (verbose rq) = Ok dataset /\
               AdminDatasets.get_source dataset = Ok source /\
               safe_file_url ext (w_fs w0) (input_parquet rq) (verbose rq)
               = Ok input_url /\
               gained (EvWrite query (output_parquet rq)) w0 w /\
               join_query_of rq input_url source query);
    [| trivial | trivial].
  apply (okp_assume_and (P := evolves (fun _ => True) (fun _ => True) w0)).
  intros (source & Hsource' & ->).
  repeat match goal with
    | |- okp _ (bind (call_write_parquet_with_metadata _ _ _ _ _) _) _ =>
        fail 1
    | |- okp _ (bind _ _) _ =>
        eapply okp_bind;
        [ apply okp_keeps;
          repeat (intros; cbv zeta; logs_step ltac:(exact I) ltac:(exact I))
        | intros ?; cbv beta ]
    end.
  eapply okp_bind; [apply okp_write_gained|]. intros ?.
  eapply okp_weaken;
    [ apply okp_gained_keeps; intros w1;
      repeat (intros; cbv zeta; logs_step ltac:(exact I) ltac:(exact I))
    | intros ? Hw; exact Hw
    | ].
  intros ? w Hw. cbv beta in Hw.
  exists dataset, source, input_url. eexists.
  repeat (split; [eassumption|]).
  match goal with
  | |- join_query_of _ _ _
         (QueryText.build_query ?sc ?url ?ref ?ibc ?abc ?agc ?igc) =>
      destruct (build_query_shows sc url ref ibc abc agc igc)
        as (Hsc & Hfrom & Hjoin & Hst)
  end.
  split; [exact Hfrom|].
  split; [rewrite !append_assoc in Hjoin; exact Hjoin|].
  split; [exact Hst|].
  intros level Hin. eapply occurs_in_trans; [|exact Hsc].
  apply select_clause_has_alias; [|exact Hin].
  eapply partition_columns_length; eassumption.
Qed.

End WrittenQuery.

(** X20. A join request that returns outside dry-run mode has handed a query
    to [write_parquet_with_metadata] for the output path. The query reads
    [FROM] the URL that [safe_file_url] gave for the input, [LEFT JOIN]s the
    source of the dataset in quotes, tests [ST_Intersects] and holds the
    alias [admin:<level>] of every requested level. *)
Theorem executed_join_writes_join_query
  (FS Meta : Type) (ext : Externals FS Meta)
  (cls : AdminDatasetFactory.registry) (rq : JoinRequest) (w : World FS) :
  dry_run rq = false ->
  fst (add_admin_divisions_multi ext cls rq w) = Ok tt ->
  exists dataset source input_url query new,
    AdminDatasetFactory.create cls (dataset_name rq) (dataset_source rq)
      (verbose rq) = Ok dataset /\
    AdminDatasets.get_source dataset = Ok source /\
    safe_file_url ext (w_fs w) (input_parquet rq) (verbose rq) = Ok input_url /\
    w_log (snd (add_admin_divisions_multi ext cls rq w))
    = (w_log w ++ new)%list /\
    In (EvWrite query (output_parquet rq)) new /\
    PyStr.occurs_in ("FROM '" ++ input_url ++ "' a") query /\
    PyStr.occurs_in ("LEFT JOIN '" ++ source ++ "' b") query /\
    PyStr.occurs_in "ST_Intersects(" query /\
    forall level, In level (levels rq) ->
      PyStr.occurs_in (PyStr.dq ++ "admin:" ++ level ++ PyStr.dq) query.
Proof.
  intros Hdry H.
  destruct (add_admin_divisions_multi ext cls rq w) as [r w'] eqn:E.
  simpl in *. subst r.
  destruct (@writes_join_query _ _ ext cls rq w Hdry w tt w'
              (@extends_refl _ _ w) E)
    as (dataset & source & input_url & query & Hc & Hs & Hu
        & (new & Hlog & Hin) & Hq1 & Hq2 & Hq3 & Hq4).
  exists dataset, source, input_url, query, new. repeat split; assumption.
Qed.

(** X20 on an Overture join of the level region. *)
Lemma executed_join_writes_join_query_overture :
  exists query new,
    w_log (snd (Sample.run Sample.ext
                  (Sample.request "overture" ["region"] None false)))
    = new /\
    In (EvWrite query "out.parquet") new /\
    PyStr.occurs_in "FROM 'in.parquet' a" query /\
    PyStr.occurs_in (PyStr.dq ++ "admin:region" ++ PyStr.dq) query.
Proof.
  destruct (@executed_join_writes_join_query Sample.FS Sample.Meta Sample.ext
              AdminDatasetFactory._datasets
              (Sample.request "overture" ["region"] None false) Sample.world0
              eq_refl eq_refl)
    as (dataset & source & input_url & query & new & _ & _ & Hu & Hlog & Hin
        & Hfrom & _ & _ & Hlevels).
  exists query, new. injection Hu as <-.
  split; [exact Hlog|]. split; [exact Hin|]. split; [exact Hfrom|].
  apply Hlevels. now left.
Defined.

(** * What the factory can yield *)

(** X19. The factory never yields a custom dataset. [create_custom] raises a
    type error for every argument, since [CustomAdminDataset] leaves the
    abstract method [configure_s3] unimplemented; and whatever classes are
    registered, a dataset that [create] returns is an instance of the class
    registered under the identifier, which is not [CustomAdminDataset], and
    carries the given source path and verbosity. *)
Theorem factory_never_yields_custom_dataset :
  (forall (sp : option string) (cols : list string) (g : string)
          (b : option string) (v : bool),
     exists msg,
       AdminDatasetFactory.create_custom sp cols g b v = Raise (TypeError msg) /\
       PyStr.occurs_in "CustomAdminDataset" msg /\
       PyStr.occurs_in "configure_s3" msg) /\
  (forall (cls : AdminDatasetFactory.registry) (name : string)
          (sp : option string) (v : bool) (self : AdminDataset),
     AdminDatasetFactory.create cls name sp v = Ok self ->
     AdminDatasetFactory.class_of self <> CustomAdminDataset_cls /\
     Dict.get name cls = Some (AdminDatasetFactory.class_of self) /\
     AdminDatasets.source_path self = sp /\
     AdminDatasets.verbose self = v).
Proof.
  split.
  - intros sp cols g b v. eexists. split; [reflexivity|]. split.
    + exists "Can't instantiate abstract class ",
        " with abstract method configure_s3". reflexivity.
    + exists "Can't instantiate abstract class CustomAdminDataset with abstract method ",
        "". reflexivity.
  - intros cls name sp v self. unfold AdminDatasetFactory.create.
    destruct (Dict.get name cls) as [c|]; [|discriminate].
    destruct c; simpl; intros E; try discriminate; injection E as <-;
      simpl; repeat split; discriminate.
Qed.

(** [create_custom] on the custom dataset of the spec's scenario. *)
Example create_custom_raises :
  AdminDatasetFactory.create_custom (Some "regions.parquet")
    ["region_name"; "zone"] "geom" None false
  = Raise (TypeError
      "Can't instantiate abstract class CustomAdminDataset with abstract method configure_s3").
Proof. reflexivity. Qed.

(** * [configure_s3] *)

(** X21. On an open session, a [configure_s3] that returns has run exactly
    the statements of its dataset, in order, after those the session had run
    before, and has left the files alone. For the Current and GAUL datasets
    these are the three statements that end the set-up of a join request,
    which hard-codes them instead of calling [configure_s3]. *)
Theorem configure_s3_runs_its_statements
  (FS Meta : Type) (ext : Externals FS Meta) (self : AdminDataset)
  (w : World FS) (history : list string) :
  w_con w = SessionOpen history ->
  fst (configure_s3 ext self w) = Ok tt ->
  w_con (snd (configure_s3 ext self w))
  = SessionOpen (history ++ AdminDatasets.configure_s3_statements self)%list /\
  w_fs (snd (configure_s3 ext self w)) = w_fs w /\
  (AdminDatasetFactory.class_of self = CurrentAdminDataset_cls \/
   AdminDatasetFactory.class_of self = GAULAdminDataset_cls ->
   QueryText.setup_statements
   = (["INSTALL spatial;"; "LOAD spatial;"; "INSTALL httpfs;"; "LOAD httpfs;"]
      ++ AdminDatasets.configure_s3_statements self)%list).
Proof.
  intros Hcon Hok. split; [|split].
  - destruct (configure_s3 ext self w) as [r w'] eqn:E. simpl in *. subst r.
    assert (H : okp (history_is history) (configure_s3 ext self)
                  (fun _ => history_is
                     (history ++ AdminDatasets.configure_s3_statements self)%list)).
    { unfold configure_s3. eapply okp_bind.
      - apply okp_mapM_history with (q := fun sql : string => sql).
        intros h sql. apply okp_execute_history.
      - intros rows. rewrite map_id. apply okp_ret. }
    exact (H w tt w' Hcon E).
  - assert (H : keeps (extends_with (fun _ => True) w) (configure_s3 ext self)).
    { unfold configure_s3. apply keeps_bind; [|intros; apply keeps_ret].
      apply keeps_mapM. intros sql. now apply keeps_con_execute. }
    exact (proj1 (H w (extends_refl _ w))).
  - destruct self; simpl; intros [H | H]; try discriminate; reflexivity.
Qed.

(** X21 on the Overture dataset, after the set-up of a join. *)
Lemma configure_s3_on_overture :
  w_con (snd (configure_s3 Sample.ext (OvertureAdminDataset None false)
                {| w_fs := ["in.parquet"];
                   w_con := SessionOpen QueryText.setup_statements;
                   w_log := [] |}))
  = SessionOpen (QueryText.setup_statements ++ ["SET s3_region='us-west-2';"])%list.
Proof.
  apply (@configure_s3_runs_its_statements Sample.FS Sample.Meta Sample.ext
           (OvertureAdminDataset None false)
           {| w_fs := ["in.parquet"];
              w_con := SessionOpen QueryText.setup_statements;
              w_log := [] |}
           QueryText.setup_statements eq_refl eq_refl).
Defined.
